(** * struct2java: layout extraction from DWARF debug records

    A shallow embedding of [scripts/struct2java.py].  The script parses an
    ELF file with pyelftools, indexes the structure and typedef records of
    every compilation unit, resolves the name given on the command line and
    prints one Java constant per member of the struct it found.

    The parsing itself belongs to pyelftools; the embedding starts at the
    objects the script receives from it: compilation units, DIEs and their
    attribute dictionaries. *)

From Stdlib Require Import ZArith String Ascii List Lia HexString.
From Stdlib.Strings Require Import Byte.
From stdpp Require Import base option list strings gmap.

Local Open Scope Z_scope.
Local Open Scope string_scope.
Local Open Scope list_scope.

#[local] Set Warnings "-register-all".

(** ** Python values and exceptions *)

(** The [value] field of a pyelftools [AttributeValue] is an [int] for the
    constant and reference forms, a [bytes] object for the string forms and
    a list of integers for the block and expression forms. *)
Inductive PyValue : Type :=
  | PyInt (n : Z)
  | PyBytes (b : list byte)
  | PyList (l : list Z).

Record AttributeValue : Type := mkAttr { value : PyValue }.

(** The exceptions the script can let escape. *)
Inductive PyExn : Type :=
  | KeyError (key : string)
  | TypeError
  | AttributeError
  | UnicodeDecodeError.

(** ** Debug records *)

(** A DIE as the script sees it: [tag], the [attributes] dictionary,
    [offset] (absolute, in the debug-info section), the [cu_offset] of the
    compilation unit it belongs to ([DIE.cu.cu_offset]) and the children
    that [iter_children] yields, in order. *)
Inductive DIE : Type := mkDIE {
  tag : string;
  attributes : gmap string AttributeValue;
  offset : Z;
  cu_offset : Z;
  children : list DIE
}.

(** A compilation unit is reached through its top DIE. *)
Record CU : Type := mkCU { top_DIE : DIE }.

(** What [ELFFile] offers to the script. *)
Record ELFFile : Type := mkELF {
  has_dwarf_info : bool;
  get_dwarf_info : list CU
}.

(** [CU.iter_DIEs()]: the DIE tree of the unit in pre-order.  The null
    entries that close a list of children, which pyelftools may yield as
    well, have no tag and are left out: the loop below tests the tag and
    ignores them. *)
Fixpoint iter_subtree (d : DIE) : list DIE :=
  d :: (fix go (l : list DIE) : list DIE :=
          match l with
          | [] => []
          | c :: l' => iter_subtree c ++ go l'
          end) (children d).

Definition iter_DIEs (cu : CU) : list DIE := iter_subtree (top_DIE cu).

(** The two nested [for] loops of the script visit the DIEs of all units
    in this order. *)
Definition iter_all (cus : list CU) : list DIE := flat_map iter_DIEs cus.

(** ** Results *)

(** Arguments handed to [die] after the format string. *)
Inductive DieArg : Type :=
  | ArgStr (s : string)
  | ArgDIE (d : DIE).

(** A computation of the script returns, lets an exception escape, or
    leaves through [die]: [sys.exit(1)] after writing
    ['struct2java.py: ' + fmt % args] to standard error. *)
Inductive result (A : Type) : Type :=
  | Ok (a : A)
  | Raise (e : PyExn)
  | Die (fmt : string) (args : list DieArg).

Arguments Ok {A} a.
Arguments Raise {A} e.
Arguments Die {A} fmt args.

Definition rbind {A B : Type} (m : result A) (k : A -> result B) : result B :=
  match m with
  | Ok a => k a
  | Raise e => Raise e
  | Die fmt args => Die fmt args
  end.

Notation "'let?' x ':=' m 'in' k" := (rbind m (fun x => k))
  (at level 10, x name, m at level 100, k at level 200).

(** ** [DIE_to_name] *)

(** [bytes.decode('ascii')]: every byte must be below 128. *)
Definition decode_ascii (b : list byte) : result string :=
  if forallb (fun c => (Byte.to_N c <? 128)%N) b
  then Ok (string_of_list_byte b)
  else Raise UnicodeDecodeError.

(** [name_attr.value.decode('ascii')]: only [bytes] has a [decode]. *)
Definition value_decode_ascii (v : PyValue) : result string :=
  match v with
  | PyBytes b => decode_ascii b
  | PyInt _ | PyList _ => Raise AttributeError
  end.

Definition DIE_to_name (d : DIE) : result (option string) :=
  match attributes d !! "DW_AT_name" with
  | Some name_attr =>
      let? s := value_decode_ascii (value name_attr) in Ok (Some s)
  | None => Ok None
  end.

(** ** The index-building loop *)

Record Index : Type := mkIndex {
  structs_by_offset : gmap Z DIE;
  structs_by_name : gmap string DIE;
  typedefs_by_name : gmap string DIE
}.

Definition empty_index : Index := mkIndex ∅ ∅ ∅.

(** First [if] of the loop body. *)
Definition index_typedef (ix : Index) (d : DIE) : result Index :=
  if String.eqb (tag d) "DW_TAG_typedef" then
    let? name := DIE_to_name d in
    match name with
    | Some n =>
        Ok (mkIndex (structs_by_offset ix) (structs_by_name ix)
                    (<[n := d]> (typedefs_by_name ix)))
    | None => Ok ix
    end
  else Ok ix.

(** Second [if] of the loop body: the offset table is written before the
    name is read. *)
Definition index_struct (ix : Index) (d : DIE) : result Index :=
  if String.eqb (tag d) "DW_TAG_structure_type" then
    let by_off := <[offset d := d]> (structs_by_offset ix) in
    let? name := DIE_to_name d in
    match name with
    | Some n =>
        Ok (mkIndex by_off (<[n := d]> (structs_by_name ix))
                    (typedefs_by_name ix))
    | None => Ok (mkIndex by_off (structs_by_name ix) (typedefs_by_name ix))
    end
  else Ok ix.

Definition index_DIE (ix : Index) (d : DIE) : result Index :=
  let? ix1 := index_typedef ix d in index_struct ix1 d.

Fixpoint index_loop (ix : Index) (dies : list DIE) : result Index :=
  match dies with
  | [] => Ok ix
  | d :: rest => let? ix' := index_DIE ix d in index_loop ix' rest
  end.

Definition build_index (cus : list CU) : result Index :=
  index_loop empty_index (iter_all cus).

(** ** Resolving the queried name *)

(** [d[key]] on a Python dictionary. *)
Definition getitem (d : gmap string AttributeValue) (key : string)
  : result AttributeValue :=
  match d !! key with
  | Some a => Ok a
  | None => Raise (KeyError key)
  end.

(** [v + n] for an [int] [n]: [bytes + int] and [list + int] are type
    errors. *)
Definition py_add_int (v : PyValue) (n : Z) : result Z :=
  match v with
  | PyInt m => Ok (m + n)
  | PyBytes _ | PyList _ => Raise TypeError
  end.

(** Lines 67 to 73: the value of the variable [struct] before the test
    that calls [die]; [None] is Python's [None]. *)
Definition lookup_struct (ix : Index) (name : string) : result (option DIE) :=
  match structs_by_name ix !! name with
  | Some s => Ok (Some s)
  | None =>
      match typedefs_by_name ix !! name with
      | Some td =>
          let? a := getitem (attributes td) "DW_AT_type" in
          let? struct_offset := py_add_int (value a) (cu_offset td) in
          Ok (structs_by_offset ix !! struct_offset)
      | None => Ok None
      end
  end.

(** [die('could not find struct %s', args.struct)]. *)
Definition StructNotFound {A : Type} (name : string) : result A :=
  Die "could not find struct %s" [ArgStr name].

(** Lines 67 to 76. *)
Definition resolve_struct (ix : Index) (name : string) : result DIE :=
  let? struct := lookup_struct ix name in
  match struct with
  | Some s => Ok s
  | None => StructNotFound name
  end.

(** ** Printing *)

(** A run of the script writes lines to standard output and ends in a
    [result]; the lines written before a failure stay written (the
    interpreter flushes standard output when it exits). *)
Definition Prog (A : Type) : Type := list string * result A.

Definition pbind {A B : Type} (m : Prog A) (k : A -> Prog B) : Prog B :=
  match m with
  | (out, Ok a) => let (out', r) := k a in (out ++ out', r)
  | (out, Raise e) => (out, Raise e)
  | (out, Die fmt args) => (out, Die fmt args)
  end.

Definition lift {A : Type} (r : result A) : Prog A := ([], r).

Definition print (line : string) : Prog unit := ([line], Ok tt).

Notation "'let!' x ':=' m 'in' k" := (pbind m (fun x => k))
  (at level 10, x name, m at level 100, k at level 200).

Definition stdout {A : Type} (p : Prog A) : list string := fst p.
Definition outcome {A : Type} (p : Prog A) : result A := snd p.

(** The exit status of the process: [0] when the script runs to its end,
    [1] after [sys.exit(1)] and after an uncaught exception. *)
Definition exit_status {A : Type} (p : Prog A) : Z :=
  match outcome p with
  | Ok _ => 0
  | Raise _ | Die _ _ => 1
  end.

(** ['%x' % n]: lower-case digits, a minus sign before the digits of a
    negative number. *)
Definition format_x (n : Z) : string :=
  match n with
  | Z0 => "0"
  | Zpos p => HexString.Raw.of_pos p ""
  | Zneg p => "-" +:+ HexString.Raw.of_pos p ""
  end.

(** ['%s' % name] where [name] is a string or [None]. *)
Definition format_s (name : option string) : string :=
  match name with
  | Some s => s
  | None => "None"
  end.

(** ['  public static final int %s = 0x%x;' % (name, offset)]: [%x] wants
    an integer. *)
Definition format_member (name : option string) (offset : PyValue)
  : result string :=
  match offset with
  | PyInt n =>
      Ok ("  public static final int " +:+ format_s name +:+ " = 0x"
          +:+ format_x n +:+ ";")
  | PyBytes _ | PyList _ => Raise TypeError
  end.

(** ['final class %s {' % args.struct]. *)
Definition format_header (name : string) : string :=
  "final class " +:+ name +:+ " {".

(** The body of the loop over [struct.iter_children()]. *)
Definition emit_child (child_DIE : DIE) : Prog unit :=
  if String.eqb (tag child_DIE) "DW_TAG_member" then
    let! name := lift (DIE_to_name child_DIE) in
    let! a := lift (getitem (attributes child_DIE)
                            "DW_AT_data_member_location") in
    let! line := lift (format_member name (value a)) in
    print line
  else
    lift (Die "unknown child of struct DIE: %r" [ArgDIE child_DIE]).

Fixpoint emit_children (cs : list DIE) : Prog unit :=
  match cs with
  | [] => lift (Ok tt)
  | c :: rest => let! _ := emit_child c in emit_children rest
  end.

(** Lines 78 to 87. *)
Definition emit_class (name : string) (struct : DIE) : Prog unit :=
  let! _ := print (format_header name) in
  let! _ := emit_children (children struct) in
  print "}".

(** Lines 67 to 87, on an index already built. *)
Definition query (ix : Index) (name : string) : Prog unit :=
  let! struct := lift (resolve_struct ix name) in
  emit_class name struct.

(** The script, from the opened ELF file and the [struct] argument. *)
Definition main (elffile : ELFFile) (name : string) : Prog unit :=
  if has_dwarf_info elffile then
    let! ix := lift (build_index (get_dwarf_info elffile)) in
    query ix name
  else
    lift (Die "file does not contain debug information" []).

(** ** Vocabulary of the statements *)

(** A child that is a member record carrying the name [fst p] and the
    integer byte offset [snd p]. *)
Definition member_record (c : DIE) (p : string * Z) : Prop :=
  tag c = "DW_TAG_member" /\
  DIE_to_name c = Ok (Some (fst p)) /\
  exists a : AttributeValue,
    attributes c !! "DW_AT_data_member_location" = Some a /\
    value a = PyInt (snd p).

(** The constant declaration of the pair (member name, byte offset). *)
Definition member_line (p : string * Z) : string :=
  "  public static final int " +:+ fst p +:+ " = 0x" +:+ format_x (snd p)
  +:+ ";".

Definition is_struct (d : DIE) : bool :=
  String.eqb (tag d) "DW_TAG_structure_type".

Definition is_typedef (d : DIE) : bool :=
  String.eqb (tag d) "DW_TAG_typedef".

(** The DIE carries a name that decodes to [n]. *)
Definition named (n : string) (d : DIE) : bool :=
  match DIE_to_name d with
  | Ok (Some m) => String.eqb m n
  | _ => false
  end.

(** The last record of a sequence that satisfies [p]. *)
Definition last_such (p : DIE -> bool) (dies : list DIE) : option DIE :=
  last (filter (fun d => p d = true) dies).

(** [DIE_to_name] returns on this record (with a name or with [None]). *)
Definition name_readable (d : DIE) : bool :=
  match DIE_to_name d with
  | Ok _ => true
  | _ => false
  end.

(** The records whose name the index-building loop reads can be read. *)
Definition indexable (d : DIE) : Prop :=
  is_typedef d || is_struct d = true -> name_readable d = true.

(** A child on which the loop body runs to its [print]: a member whose
    name can be read and whose location is an integer. *)
Definition emittable (c : DIE) : Prop :=
  tag c = "DW_TAG_member" /\
  name_readable c = true /\
  exists (a : AttributeValue) (n : Z),
    attributes c !! "DW_AT_data_member_location" = Some a /\
    value a = PyInt n.

(** Every entry of the tables is a record of [dies] of the right kind,
    stored under its own name or offset. *)
Definition index_sound (dies : list DIE) (ix : Index) : Prop :=
  (forall n d, structs_by_name ix !! n = Some d ->
     d ∈ dies /\ tag d = "DW_TAG_structure_type" /\
     DIE_to_name d = Ok (Some n)) /\
  (forall n d, typedefs_by_name ix !! n = Some d ->
     d ∈ dies /\ tag d = "DW_TAG_typedef" /\ DIE_to_name d = Ok (Some n)) /\
  (forall k d, structs_by_offset ix !! k = Some d ->
     d ∈ dies /\ tag d = "DW_TAG_structure_type" /\ offset d = k).

(** The failures of the member loop. *)
Definition loop_failure (cs : list DIE) (r : result unit) : Prop :=
  match r with
  | Ok _ => True
  | Die fmt args =>
      fmt = "unknown child of struct DIE: %r" /\
      exists c, args = [ArgDIE c] /\ c ∈ cs /\ tag c <> "DW_TAG_member"
  | Raise (KeyError k) => k = "DW_AT_data_member_location"
  | Raise _ => True
  end.


(** ** Sample inputs *)

Module Samples.

Definition attrs (l : list (string * PyValue)) : gmap string AttributeValue :=
  list_to_map (map (fun p => (fst p, mkAttr (snd p))) l).

Definition name_attr (s : string) : string * PyValue :=
  ("DW_AT_name", PyBytes (list_byte_of_string s)).

(** A member with a name and an integer [DW_AT_data_member_location]. *)
Definition member (cu off : Z) (name : string) (loc : Z) : DIE :=
  mkDIE "DW_TAG_member"
        (attrs [name_attr name; ("DW_AT_data_member_location", PyInt loc)])
        off cu [].

Definition struct_type (cu off : Z) (name : option string) (ms : list DIE)
  : DIE :=
  mkDIE "DW_TAG_structure_type"
        (attrs (match name with Some n => [name_attr n] | None => [] end))
        off cu ms.

(** A typedef whose [DW_AT_type] holds [ref], an offset relative to the
    start of the unit. *)
Definition typedef (cu off : Z) (name : string) (ref : Z) : DIE :=
  mkDIE "DW_TAG_typedef" (attrs [name_attr name; ("DW_AT_type", PyInt ref)])
        off cu [].

Definition base_type (cu off : Z) (name : string) : DIE :=
  mkDIE "DW_TAG_base_type" (attrs [name_attr name]) off cu [].

Definition compile_unit (cu : Z) (ds : list DIE) : CU :=
  mkCU (mkDIE "DW_TAG_compile_unit" (attrs [name_attr "point.c"])
              (cu + 11) cu ds).

(** [struct Point { int x; int y; }; typedef struct Point Point_t;] in a
    unit that starts at offset 64 of the section. *)
Definition Point : DIE :=
  struct_type 64 109 (Some "Point") [member 64 118 "x" 0; member 64 131 "y" 4].

Definition point_elf : ELFFile :=
  mkELF true
        [compile_unit 0 [base_type 0 30 "char"];
         compile_unit 64 [Point; base_type 64 145 "int";
                          typedef 64 152 "Point_t" 45]].

(** The same name for a struct and for a typedef of another, anonymous
    struct. *)
Definition X_struct : DIE := struct_type 0 30 (Some "X") [member 0 35 "a" 0].
Definition X_anon : DIE := struct_type 0 50 None [member 0 52 "b" 8].
Definition X_typedef : DIE := typedef 0 70 "X" 50.

Definition shadow_elf : ELFFile :=
  mkELF true [compile_unit 0 [X_struct; X_anon; X_typedef]].

(** [typedef struct S T1; typedef T1 T2;], a typedef [V] of [void] (no
    [DW_AT_type]) and a typedef [I] of [int]. *)
Definition S_struct : DIE := struct_type 16 40 (Some "S") [member 16 45 "f" 0].
Definition T1 : DIE := typedef 16 60 "T1" 24.
Definition T2 : DIE := typedef 16 72 "T2" 44.
Definition V : DIE := mkDIE "DW_TAG_typedef" (attrs [name_attr "V"]) 84 16 [].
Definition I : DIE := typedef 16 92 "I" 88.

Definition chain_elf : ELFFile :=
  mkELF true [compile_unit 16 [S_struct; T1; T2; V; base_type 16 104 "int"; I]].

(** The index of a file, the empty one when the loop fails. *)
Definition index_of (elf : ELFFile) : Index :=
  match build_index (get_dwarf_info elf) with
  | Ok ix => ix
  | _ => empty_index
  end.

(** [struct A { int a; <member without offset> b; int c; }]. *)
Definition no_offset_member : DIE :=
  mkDIE "DW_TAG_member" (attrs [name_attr "b"]) 27 0 [].

Definition A_struct : DIE :=
  struct_type 0 20 (Some "A")
    [member 0 22 "a" 0; no_offset_member; member 0 33 "c" 8].


(** The same struct when the name of that member is not ASCII. *)
Definition accented_no_offset_member : DIE :=
  mkDIE "DW_TAG_member" (attrs [("DW_AT_name", PyBytes [xc3; xa9])]) 27 0 [].

Definition A_accented : DIE :=
  struct_type 0 20 (Some "A")
    [member 0 22 "a" 0; accented_no_offset_member; member 0 33 "c" 8].

(** [struct U { int tag; union { int i; float f; }; }]: the member that
    holds the anonymous union has no [DW_AT_name]. *)
Definition anonymous_member : DIE :=
  mkDIE "DW_TAG_member" (attrs [("DW_AT_data_member_location", PyInt 4)])
        31 0 [].

Definition U_struct : DIE :=
  struct_type 0 20 (Some "U") [member 0 22 "tag" 0; anonymous_member].

Definition anonymous_elf : ELFFile := mkELF true [compile_unit 0 [U_struct]].

(** [struct M { int m1; int m2; }]. *)
Definition M_struct : DIE :=
  struct_type 0 20 (Some "M") [member 0 22 "m1" 0; member 0 33 "m2" 4].

(** Two units that both define [struct D] and [typedef struct D D_t],
    with different layouts; the second also has an anonymous struct. *)
Definition D_first : DIE := struct_type 0 20 (Some "D") [member 0 25 "a" 0].
Definition D_t_first : DIE := typedef 0 40 "D_t" 20.
Definition D_second : DIE :=
  struct_type 100 120 (Some "D") [member 100 125 "a" 0; member 100 132 "b" 4].
Definition anon_second : DIE := struct_type 100 140 None [member 100 142 "z" 0].
Definition D_t_second : DIE := typedef 100 160 "D_t" 20.

(** The same two structs, with the typedef in the first unit only. *)
Definition alias_elf : ELFFile :=
  mkELF true [compile_unit 0 [D_first; D_t_first];
              compile_unit 100 [D_second]].

Definition dup_elf : ELFFile :=
  mkELF true [compile_unit 0 [D_first; D_t_first];
              compile_unit 100 [D_second; anon_second; D_t_second]].

(** [struct N { int a; <a nested type record>; int c; }]: the second
    child is no member. *)
Definition N_struct : DIE :=
  struct_type 0 20 (Some "N")
    [member 0 22 "a" 0; base_type 0 27 "int"; member 0 33 "c" 8].

(** A file that holds [struct Point] and, after it, a struct whose name
    is not ASCII (the UTF-8 bytes of an accented letter). *)
Definition accented_struct : DIE :=
  mkDIE "DW_TAG_structure_type"
        (attrs [("DW_AT_name", PyBytes [x63; xc3; xa9])]) 170 64 [].

Definition accented_elf : ELFFile :=
  mkELF true [compile_unit 64 [Point; accented_struct]].

End Samples.

(** * fetch_deps: fetching the dependencies of the project

    A shallow embedding of [scripts/fetch_deps.py].  The script runs
    [buck build deps:list-deps], loads the JSON file that this build
    writes and runs [buck fetch deps:<name>] for every key of the loaded
    dictionary.  It is Python 2 code: [deps.iteritems()] exists on
    Python 2 dictionaries only, and this is the interpreter modelled.

    The commands and the file system are outside the script: a [World]
    says how each command ends and what the file holds when it is opened.
    A run is the sequence of commands started and files opened, in order,
    and the way the script ends. *)

Module FetchDeps.

(** What [json.load] returns: a [dict] for an object (here its items in
    the order [iteritems()] yields them), a [list], a string, a number,
    a boolean or [None]. *)
Inductive JSON : Type :=
  | JObject (items : list (string * JSON))
  | JArray (l : list JSON)
  | JString (s : string)
  | JNumber (n : Z)
  | JBool (b : bool)
  | JNull.

(** The file at the time it is opened: absent, not JSON, or JSON. *)
Inductive FileContent : Type :=
  | Missing
  | Garbage
  | Json (j : JSON).

Record World : Type := mkWorld {
  (** the exit status of a command, [None] when it cannot be started *)
  returncode : list string -> option Z;
  read : string -> FileContent
}.

Inductive Exn : Type :=
  | CalledProcessError (code : Z) (cmd : list string)
  | OSError
  | IOError
  | ValueError
  | NoIteritems.

Inductive Event : Type :=
  | Exec (argv : list string)
  | Open (path : string).

Inductive res (A : Type) : Type :=
  | Done (a : A)
  | Raised (e : Exn).

Arguments Done {A} a.
Arguments Raised {A} e.

Definition Run (A : Type) : Type := list Event * res A.

Definition bind {A B : Type} (m : Run A) (k : A -> Run B) : Run B :=
  match m with
  | (tr, Done a) => let (tr', r) := k a in (tr ++ tr', r)
  | (tr, Raised e) => (tr, Raised e)
  end.

Notation "'run' x ':=' m 'in' k" := (bind m (fun x => k))
  (at level 10, x name, m at level 100, k at level 200).

Definition trace {A : Type} (r : Run A) : list Event := fst r.
Definition ending {A : Type} (r : Run A) : res A := snd r.

(** [subprocess.check_call(argv)]: start the command, wait for it, raise
    [CalledProcessError] when its exit status is not zero. *)
Definition check_call (w : World) (argv : list string) : Run unit :=
  ([Exec argv],
   match returncode w argv with
   | None => Raised OSError
   | Some code =>
       if Z.eqb code 0 then Done tt else Raised (CalledProcessError code argv)
   end).

(** ['deps:{}'.format(name)]. *)
Definition target (name : string) : string := "deps:" +:+ name.

Definition fetch_cmd (name : string) : list string :=
  ["buck"; "fetch"; target name].

Definition fetch_maven_library (w : World) (name : string) : Run unit :=
  check_call w (fetch_cmd name).

Definition last_char (s : string) : option ascii :=
  last (list_ascii_of_string s).

(** [os.path.join] of [posixpath]: a component that starts with a slash
    restarts the path; otherwise it is appended, after a slash unless the
    path is empty or ends with one. *)
Fixpoint path_join (path : string) (ps : list string) : string :=
  match ps with
  | [] => path
  | b :: rest =>
      let path' :=
        if String.prefix "/" b then b
        else if String.eqb path ""
                || match last_char path with
                   | Some c => Ascii.eqb c "/"
                   | None => false
                   end
             then path +:+ b
             else path +:+ "/" +:+ b in
      path_join path' rest
  end.

Definition deps_json_path : string :=
  path_join "buck-out" ["gen"; "deps"; "list-deps"; "dependencies.json"].

Definition build_cmd : list string := ["buck"; "build"; "deps:list-deps"].

(** [with open(deps_json_path) as f: deps = json.load(f)]. *)
Definition load (w : World) (path : string) : Run JSON :=
  ([Open path],
   match read w path with
   | Missing => Raised IOError
   | Garbage => Raised ValueError
   | Json j => Done j
   end).

(** [deps.iteritems()]: only a dictionary has it. *)
Definition iteritems (deps : JSON) : Run (list (string * JSON)) :=
  ([],
   match deps with
   | JObject items => Done items
   | _ => Raised NoIteritems
   end).

(** [for (name, dep) in ...: fetch_maven_library(name)]. *)
Fixpoint fetch_all (w : World) (items : list (string * JSON)) : Run unit :=
  match items with
  | [] => ([], Done tt)
  | (name, dep) :: rest =>
      run _ := fetch_maven_library w name in fetch_all w rest
  end.

Definition main (w : World) : Run unit :=
  run _ := check_call w build_cmd in
  run deps := load w deps_json_path in
  run items := iteritems deps in
  fetch_all w items.

(** The fetch of the dependency [p] ends with status 0. *)
Definition fetched (w : World) (p : string * JSON) : Prop :=
  returncode w (fetch_cmd (fst p)) = Some 0.

Definition fetch_event (p : string * JSON) : Event :=
  Exec (fetch_cmd (fst p)).

(** A world in which [buck] succeeds except when fetching [failing], and
    the file lists three dependencies. *)
Definition sample_world (failing : option string) : World :=
  mkWorld
    (fun argv =>
       match failing with
       | Some n => if bool_decide (argv = fetch_cmd n)
                   then Some 3 else Some 0
       | None => Some 0
       end)
    (fun path =>
       if String.eqb path "buck-out/gen/deps/list-deps/dependencies.json"
       then Json (JObject [("guava", JObject []); ("jsr305", JNull);
                           ("junit", JString "4.12")])
       else Missing).

(** A world in which the build ends with status 1. *)
Definition broken_build_world : World :=
  mkWorld (fun argv => if bool_decide (argv = build_cmd) then Some 1
                       else Some 0)
          (fun _ => Json (JObject [("guava", JNull)])).

(** A world in which the file holds a JSON array. *)
Definition array_world : World :=
  mkWorld (fun _ => Some 0) (fun _ => Json (JArray [JString "guava"])).

(** What a run does when nothing fails: the build, the file, one fetch
    per key of the object in the file. *)
Definition planned (w : World) : list Event :=
  Exec build_cmd :: Open deps_json_path
    :: match read w deps_json_path with
       | Json (JObject items) => map fetch_event items
       | _ => []
       end.

End FetchDeps.

(** * Properties *)

(** ** The output monad *)

Lemma pbind_lift_Ok {A B : Type} (a : A) (k : A -> Prog B) :
  pbind (lift (Ok a)) k = k a.
Proof. unfold pbind, lift. destruct (k a). reflexivity. Qed.

Lemma pbind_lift_Raise {A B : Type} (e : PyExn) (k : A -> Prog B) :
  pbind (lift (Raise e)) k = ([], Raise e).
Proof. reflexivity. Qed.

Lemma pbind_lift_Die {A B : Type} fmt args (k : A -> Prog B) :
  pbind (lift (Die fmt args)) k = ([], Die fmt args).
Proof. reflexivity. Qed.

Lemma pbind_print {B : Type} (line : string) (k : unit -> Prog B) :
  pbind (print line) k = (line :: stdout (k tt), outcome (k tt)).
Proof. unfold pbind, print, stdout, outcome. destruct (k tt). reflexivity. Qed.

(** ** Resolution *)

Section Resolution.

Variable ix : Index.
Variable name : string.

Lemma lookup_struct_direct (s : DIE) :
  structs_by_name ix !! name = Some s -> lookup_struct ix name = Ok (Some s).
Proof. unfold lookup_struct. intros ->. reflexivity. Qed.

Lemma lookup_struct_absent :
  structs_by_name ix !! name = None ->
  typedefs_by_name ix !! name = None ->
  lookup_struct ix name = Ok None.
Proof. unfold lookup_struct. intros -> ->. reflexivity. Qed.

Lemma lookup_struct_typedef (td : DIE) (a : AttributeValue) (v : Z) :
  structs_by_name ix !! name = None ->
  typedefs_by_name ix !! name = Some td ->
  attributes td !! "DW_AT_type" = Some a ->
  value a = PyInt v ->
  lookup_struct ix name = Ok (structs_by_offset ix !! (v + cu_offset td)).
Proof.
  unfold lookup_struct, getitem. intros -> -> -> Hv. cbn. rewrite Hv.
  reflexivity.
Qed.

Lemma lookup_struct_typedef_untyped (td : DIE) :
  structs_by_name ix !! name = None ->
  typedefs_by_name ix !! name = Some td ->
  attributes td !! "DW_AT_type" = None ->
  lookup_struct ix name = Raise (KeyError "DW_AT_type").
Proof. unfold lookup_struct, getitem. intros -> -> ->. reflexivity. Qed.

End Resolution.

Lemma query_resolved (ix : Index) (name : string) (s : DIE) :
  resolve_struct ix name = Ok s -> query ix name = emit_class name s.
Proof.
  unfold query. intros ->. apply pbind_lift_Ok.
Qed.

Lemma query_unresolved (ix : Index) (name : string) :
  lookup_struct ix name = Ok None -> query ix name = ([], StructNotFound name).
Proof. unfold query, resolve_struct. intros ->. reflexivity. Qed.

(** C1: a name found in [structs_by_name] resolves to the record stored
    there.  The typedef table is not consulted: the result is the same for
    every content of [typedefs_by_name] (and of [structs_by_offset]), also
    when a typedef of that name exists. *)
Theorem direct_struct_name_has_priority
    (ix : Index) (name : string) (s : DIE) :
  structs_by_name ix !! name = Some s ->
  resolve_struct ix name = Ok s /\
  forall (by_off : gmap Z DIE) (tds : gmap string DIE),
    resolve_struct (mkIndex by_off (structs_by_name ix) tds) name = Ok s.
Proof.
  intros Hs. split.
  - unfold resolve_struct. rewrite (lookup_struct_direct _ _ _ Hs).
    reflexivity.
  - intros by_off tds. unfold resolve_struct.
    rewrite (lookup_struct_direct _ _ s); [reflexivity | exact Hs].
Qed.

Lemma direct_struct_name_has_priority_witness :
  structs_by_name (Samples.index_of Samples.shadow_elf) !! "X"
    = Some Samples.X_struct /\
  (resolve_struct (Samples.index_of Samples.shadow_elf) "X"
     = Ok Samples.X_struct /\
   forall (by_off : gmap Z DIE) (tds : gmap string DIE),
     resolve_struct
       (mkIndex by_off
          (structs_by_name (Samples.index_of Samples.shadow_elf)) tds) "X"
     = Ok Samples.X_struct).
Proof.
  split.
  - vm_compute. reflexivity.
  - apply (direct_struct_name_has_priority
             (Samples.index_of Samples.shadow_elf) "X" Samples.X_struct).
    vm_compute. reflexivity.
Defined.

(** In the sample a typedef named [X] is indexed too, and it aliases
    another struct. *)
Example shadow_elf_has_typedef_X :
  typedefs_by_name (Samples.index_of Samples.shadow_elf) !! "X"
    = Some Samples.X_typedef /\
  structs_by_offset (Samples.index_of Samples.shadow_elf) !! 50
    = Some Samples.X_anon /\
  stdout (main Samples.shadow_elf "X")
    = ["final class X {"; "  public static final int a = 0x0;"; "}"].
Proof. vm_compute. repeat split. Qed.

(** C2: for a name that is no struct name but a typedef name, the offset
    looked up in [structs_by_offset] is the value of the typedef's
    [DW_AT_type] plus the [cu_offset] of the typedef's unit. *)
Theorem typedef_target_is_type_plus_cu_offset
    (ix : Index) (name : string) (td : DIE) (a : AttributeValue) (v : Z) :
  structs_by_name ix !! name = None ->
  typedefs_by_name ix !! name = Some td ->
  attributes td !! "DW_AT_type" = Some a ->
  value a = PyInt v ->
  lookup_struct ix name = Ok (structs_by_offset ix !! (v + cu_offset td)) /\
  resolve_struct ix name
    = match structs_by_offset ix !! (v + cu_offset td) with
      | Some s => Ok s
      | None => StructNotFound name
      end.
Proof.
  intros Hs Ht Ha Hv.
  pose proof (lookup_struct_typedef ix name td a v Hs Ht Ha Hv) as Hl.
  split; [exact Hl |]. unfold resolve_struct. rewrite Hl. reflexivity.
Qed.

Lemma typedef_target_is_type_plus_cu_offset_witness :
  let ix := Samples.index_of Samples.point_elf in
  let td := Samples.typedef 64 152 "Point_t" 45 in
  structs_by_name ix !! "Point_t" = None /\
  typedefs_by_name ix !! "Point_t" = Some td /\
  attributes td !! "DW_AT_type" = Some (mkAttr (PyInt 45)) /\
  value (mkAttr (PyInt 45)) = PyInt 45 /\
  lookup_struct ix "Point_t" = Ok (structs_by_offset ix !! (45 + cu_offset td)) /\
  resolve_struct ix "Point_t"
    = match structs_by_offset ix !! (45 + cu_offset td) with
      | Some s => Ok s
      | None => StructNotFound "Point_t"
      end.
Proof.
  intros ix td.
  assert (H1 : structs_by_name ix !! "Point_t" = None)
    by (vm_compute; reflexivity).
  assert (H2 : typedefs_by_name ix !! "Point_t" = Some td)
    by (vm_compute; reflexivity).
  assert (H3 : attributes td !! "DW_AT_type" = Some (mkAttr (PyInt 45)))
    by (vm_compute; reflexivity).
  assert (H4 : value (mkAttr (PyInt 45)) = PyInt 45) by reflexivity.
  repeat (split; [assumption |]).
  exact (typedef_target_is_type_plus_cu_offset ix "Point_t" td _ 45 H1 H2 H3 H4).
Defined.

(** C4: a name that is neither a struct name nor a typedef name, and a
    typedef name whose target offset is not a key of [structs_by_offset],
    both end in [die('could not find struct %s', name)] with nothing
    printed.  Only [structs_by_offset] is read at the target offset, so a
    typedef that points to a typedef is not followed. *)
Theorem unresolved_name_is_struct_not_found (ix : Index) (name : string) :
  structs_by_name ix !! name = None ->
  (typedefs_by_name ix !! name = None \/
   exists (td : DIE) (a : AttributeValue) (v : Z),
     typedefs_by_name ix !! name = Some td /\
     attributes td !! "DW_AT_type" = Some a /\
     value a = PyInt v /\
     structs_by_offset ix !! (v + cu_offset td) = None) ->
  resolve_struct ix name = StructNotFound name /\
  query ix name = ([], StructNotFound name).
Proof.
  intros Hs H.
  assert (Hl : lookup_struct ix name = Ok None).
  { destruct H as [Ht | (td & a & v & Ht & Ha & Hv & Ho)].
    - apply lookup_struct_absent; assumption.
    - rewrite (lookup_struct_typedef ix name td a v Hs Ht Ha Hv), Ho.
      reflexivity. }
  split.
  - unfold resolve_struct. rewrite Hl. reflexivity.
  - apply query_unresolved, Hl.
Qed.

(** The two-level chain: [T2] aliases the typedef [T1] of the struct
    [S]. *)
Lemma unresolved_name_is_struct_not_found_witness :
  let ix := Samples.index_of Samples.chain_elf in
  structs_by_name ix !! "T2" = None /\
  (typedefs_by_name ix !! "T2" = None \/
   exists (td : DIE) (a : AttributeValue) (v : Z),
     typedefs_by_name ix !! "T2" = Some td /\
     attributes td !! "DW_AT_type" = Some a /\
     value a = PyInt v /\
     structs_by_offset ix !! (v + cu_offset td) = None) /\
  resolve_struct ix "T2" = StructNotFound "T2" /\
  query ix "T2" = ([], StructNotFound "T2").
Proof.
  intros ix.
  assert (H1 : structs_by_name ix !! "T2" = None) by (vm_compute; reflexivity).
  assert (H2 : typedefs_by_name ix !! "T2" = None \/
   exists (td : DIE) (a : AttributeValue) (v : Z),
     typedefs_by_name ix !! "T2" = Some td /\
     attributes td !! "DW_AT_type" = Some a /\
     value a = PyInt v /\
     structs_by_offset ix !! (v + cu_offset td) = None).
  { right. exists Samples.T2, (mkAttr (PyInt 44)), 44.
    repeat split; vm_compute; reflexivity. }
  split; [exact H1 |]. split; [exact H2 |].
  exact (unresolved_name_is_struct_not_found ix "T2" H1 H2).
Defined.

(** The chain itself: [T1] resolves, [T2] points at [T1]'s offset, and
    names unknown to both tables or aliasing a base type fail alike. *)
Example chain_elf_runs :
  main Samples.chain_elf "T1"
    = (["final class T1 {"; "  public static final int f = 0x0;"; "}"], Ok tt) /\
  offset Samples.T1 = 44 + cu_offset Samples.T2 /\
  main Samples.chain_elf "T2" = ([], StructNotFound "T2") /\
  main Samples.chain_elf "I" = ([], StructNotFound "I") /\
  main Samples.chain_elf "nothing" = ([], StructNotFound "nothing").
Proof. vm_compute. repeat split. Qed.

(** C9: a typedef without [DW_AT_type] makes [td.attributes['DW_AT_type']]
    raise [KeyError]; the exception escapes, [die] is not reached. *)
Theorem typedef_without_type_raises_KeyError
    (ix : Index) (name : string) (td : DIE) :
  structs_by_name ix !! name = None ->
  typedefs_by_name ix !! name = Some td ->
  attributes td !! "DW_AT_type" = None ->
  query ix name = ([], Raise (KeyError "DW_AT_type")) /\
  forall fmt args, outcome (query ix name) <> Die fmt args.
Proof.
  intros Hs Ht Ha.
  assert (Hq : query ix name = ([], Raise (KeyError "DW_AT_type"))).
  { unfold query, resolve_struct.
    rewrite (lookup_struct_typedef_untyped ix name td Hs Ht Ha). reflexivity. }
  split; [exact Hq |]. intros fmt args. rewrite Hq. discriminate.
Qed.

Lemma typedef_without_type_raises_KeyError_witness :
  let ix := Samples.index_of Samples.chain_elf in
  structs_by_name ix !! "V" = None /\
  typedefs_by_name ix !! "V" = Some Samples.V /\
  attributes Samples.V !! "DW_AT_type" = None /\
  query ix "V" = ([], Raise (KeyError "DW_AT_type")) /\
  forall fmt args, outcome (query ix "V") <> Die fmt args.
Proof.
  intros ix.
  assert (H1 : structs_by_name ix !! "V" = None) by (vm_compute; reflexivity).
  assert (H2 : typedefs_by_name ix !! "V" = Some Samples.V)
    by (vm_compute; reflexivity).
  assert (H3 : attributes Samples.V !! "DW_AT_type" = None)
    by (vm_compute; reflexivity).
  repeat (split; [assumption |]).
  exact (typedef_without_type_raises_KeyError ix "V" Samples.V H1 H2 H3).
Defined.

(** ** Emission *)

Lemma emit_child_member (c : DIE) (p : string * Z) :
  member_record c p -> emit_child c = ([member_line p], Ok tt).
Proof.
  intros (Htag & Hname & a & Hloc & Hv).
  unfold emit_child. rewrite Htag. cbn [String.eqb].
  replace (String.eqb "DW_TAG_member" "DW_TAG_member") with true
    by (symmetry; apply String.eqb_refl).
  rewrite Hname, pbind_lift_Ok. unfold getitem. rewrite Hloc, pbind_lift_Ok.
  unfold format_member. rewrite Hv, pbind_lift_Ok. reflexivity.
Qed.

Lemma emit_children_cons (c : DIE) (rest : list DIE) (line : string) :
  emit_child c = ([line], Ok tt) ->
  emit_children (c :: rest)
    = (line :: stdout (emit_children rest), outcome (emit_children rest)).
Proof.
  intros H. cbn [emit_children]. rewrite H. apply (pbind_print line).
Qed.


(** A prefix of well-formed members prints its lines and hands over to the
    rest of the children. *)
Lemma emit_children_members (pre : list DIE) (pairs : list (string * Z)) :
  Forall2 member_record pre pairs ->
  forall rest : list DIE,
    emit_children (pre ++ rest)
    = (map member_line pairs ++ stdout (emit_children rest),
       outcome (emit_children rest)).
Proof.
  induction 1 as [| c p pre pairs Hc _ IH]; intros rest.
  - cbn. destruct (emit_children rest). reflexivity.
  - cbn [app map]. rewrite (emit_children_cons c _ (member_line p)).
    + rewrite IH. reflexivity.
    + apply emit_child_member, Hc.
Qed.

Lemma emit_class_unfold (name : string) (s : DIE) :
  emit_class name s
  = (format_header name
       :: stdout (emit_children (children s))
          ++ match outcome (emit_children (children s)) with
             | Ok _ => ["}"]
             | _ => []
             end,
     outcome (emit_children (children s))).
Proof.
  unfold emit_class. rewrite pbind_print.
  destruct (emit_children (children s)) as [out [[] | e | fmt args]];
    cbn; rewrite ?app_nil_r; reflexivity.
Qed.

Lemma format_x_nonneg (n : Z) :
  0 <= n -> "0x" +:+ format_x n = HexString.of_Z n.
Proof. destruct n; [reflexivity | reflexivity | lia]. Qed.

(** C7: when the children of the struct are member records carrying the
    names and byte offsets [pairs], in this order, the loop prints exactly
    the constants of [pairs] in this order, and the run of the block
    succeeds; each hexadecimal literal printed for a non-negative offset
    reads back as that offset. *)
Theorem members_emitted_in_declaration_order
    (name : string) (s : DIE) (pairs : list (string * Z)) :
  Forall2 member_record (children s) pairs ->
  emit_children (children s) = (map member_line pairs, Ok tt) /\
  emit_class name s
    = (format_header name :: map member_line pairs ++ ["}"], Ok tt) /\
  Forall (fun p => 0 <= snd p ->
                   HexString.to_Z ("0x" +:+ format_x (snd p)) = snd p) pairs.
Proof.
  intros Hm.
  assert (He : emit_children (children s) = (map member_line pairs, Ok tt)).
  { pose proof (emit_children_members _ _ Hm []) as H.
    rewrite app_nil_r in H. rewrite H. cbn. rewrite app_nil_r. reflexivity. }
  split; [exact He |]. split.
  - rewrite emit_class_unfold, He. reflexivity.
  - apply Forall_forall. intros p _ Hp.
    rewrite (format_x_nonneg _ Hp). apply HexString.to_Z_of_Z.
Qed.

Lemma M_struct_members :
  Forall2 member_record (children Samples.M_struct) [("m1", 0); ("m2", 4)].
Proof.
  repeat constructor; cbn; eexists; split; reflexivity.
Defined.

Lemma members_emitted_in_declaration_order_witness :
  Forall2 member_record (children Samples.M_struct) [("m1", 0); ("m2", 4)] /\
  emit_children (children Samples.M_struct)
    = (map member_line [("m1", 0); ("m2", 4)], Ok tt) /\
  emit_class "M" Samples.M_struct
    = (format_header "M" :: map member_line [("m1", 0); ("m2", 4)] ++ ["}"],
       Ok tt) /\
  Forall (fun p : string * Z =>
            0 <= snd p ->
            HexString.to_Z ("0x" +:+ format_x (snd p)) = snd p)
         [("m1", 0); ("m2", 4)].
Proof.
  split; [exact M_struct_members |].
  exact (members_emitted_in_declaration_order "M" Samples.M_struct
           [("m1", 0); ("m2", 4)] M_struct_members).
Defined.

Example M_struct_lines :
  map member_line [("m1", 0); ("m2", 4)]
  = ["  public static final int m1 = 0x0;";
     "  public static final int m2 = 0x4;"].
Proof. reflexivity. Qed.

Example point_elf_runs :
  main Samples.point_elf "Point_t"
    = (["final class Point_t {"; "  public static final int x = 0x0;";
        "  public static final int y = 0x4;"; "}"], Ok tt) /\
  main Samples.point_elf "Point"
    = (["final class Point {"; "  public static final int x = 0x0;";
        "  public static final int y = 0x4;"; "}"], Ok tt) /\
  exit_status (main Samples.point_elf "Point_t") = 0.
Proof. vm_compute. repeat split. Qed.

(** ** The whole run *)

Lemma main_Ok_inv (elf : ELFFile) (name : string) (out : list string) :
  main elf name = (out, Ok tt) ->
  exists (ix : Index) (s : DIE),
    has_dwarf_info elf = true /\
    build_index (get_dwarf_info elf) = Ok ix /\
    resolve_struct ix name = Ok s /\
    emit_class name s = (out, Ok tt).
Proof.
  unfold main. destruct (has_dwarf_info elf); [| discriminate].
  destruct (build_index (get_dwarf_info elf)) as [ix | e | fmt args] eqn:Hb;
    [| discriminate | discriminate].
  rewrite pbind_lift_Ok. unfold query.
  destruct (resolve_struct ix name) as [s | e | fmt args] eqn:Hr;
    [| discriminate | discriminate].
  rewrite pbind_lift_Ok. intros H. exists ix, s. repeat split; assumption.
Qed.

(** C10: a run that succeeds has printed, as its first line, the class
    header built from the string given on the command line, whichever
    record the name resolved to (for a typedef, the struct behind it, whose
    own name is not used); the member lines and the closing brace follow. *)
Theorem block_named_after_query
    (elf : ELFFile) (name : string) (out : list string) :
  main elf name = (out, Ok tt) ->
  exists (ix : Index) (s : DIE),
    build_index (get_dwarf_info elf) = Ok ix /\
    resolve_struct ix name = Ok s /\
    out = ("final class " +:+ name +:+ " {")
            :: stdout (emit_children (children s)) ++ ["}"].
Proof.
  intros H. destruct (main_Ok_inv elf name out H) as (ix & s & _ & Hb & Hr & He).
  exists ix, s. split; [exact Hb |]. split; [exact Hr |].
  rewrite emit_class_unfold in He.
  destruct (outcome (emit_children (children s))); [| discriminate ..].
  injection He as <-. reflexivity.
Qed.

Lemma block_named_after_query_witness :
  main Samples.point_elf "Point_t"
    = (["final class Point_t {"; "  public static final int x = 0x0;";
        "  public static final int y = 0x4;"; "}"], Ok tt) /\
  exists (ix : Index) (s : DIE),
    build_index (get_dwarf_info Samples.point_elf) = Ok ix /\
    resolve_struct ix "Point_t" = Ok s /\
    ["final class Point_t {"; "  public static final int x = 0x0;";
     "  public static final int y = 0x4;"; "}"]
    = ("final class " +:+ "Point_t" +:+ " {")
        :: stdout (emit_children (children s)) ++ ["}"].
Proof.
  assert (H : main Samples.point_elf "Point_t"
    = (["final class Point_t {"; "  public static final int x = 0x0;";
        "  public static final int y = 0x4;"; "}"], Ok tt))
    by (vm_compute; reflexivity).
  split; [exact H |].
  exact (block_named_after_query Samples.point_elf "Point_t" _ H).
Defined.

(** In that run the struct found is named [Point], the block [Point_t]. *)
Example point_t_resolves_to_Point :
  resolve_struct (Samples.index_of Samples.point_elf) "Point_t"
    = Ok Samples.Point /\
  DIE_to_name Samples.Point = Ok (Some "Point") /\
  head (stdout (main Samples.point_elf "Point_t"))
    = Some "final class Point_t {".
Proof. vm_compute. repeat split. Qed.

(** ** Members without a name or without an offset *)

Lemma emit_child_anonymous (c : DIE) (a : AttributeValue) (off : Z) :
  tag c = "DW_TAG_member" ->
  attributes c !! "DW_AT_name" = None ->
  attributes c !! "DW_AT_data_member_location" = Some a ->
  value a = PyInt off ->
  emit_child c = ([member_line ("None", off)], Ok tt).
Proof.
  intros Htag Hname Hloc Hv. unfold emit_child, DIE_to_name, getitem.
  rewrite Htag, Hname, Hloc. cbn [String.eqb].
  replace (String.eqb "DW_TAG_member" "DW_TAG_member") with true
    by (symmetry; apply String.eqb_refl).
  rewrite !pbind_lift_Ok. unfold format_member. rewrite Hv, pbind_lift_Ok.
  reflexivity.
Qed.


(** C5: on [struct U], whose second member has no [DW_AT_name],
    [DIE_to_name] returns [None], the loop formats it with [%s] and the
    run succeeds with a constant named [None]; nothing fails. *)
Theorem anonymous_member_printed_as_None :
  DIE_to_name Samples.anonymous_member = Ok None /\
  main Samples.anonymous_elf "U"
    = (["final class U {";
        "  public static final int tag = 0x0;";
        "  public static final int None = 0x4;";
        "}"], Ok tt) /\
  exit_status (main Samples.anonymous_elf "U") = 0.
Proof. vm_compute. repeat split. Qed.




(** Both ways of failing at the member without offset. *)
Example missing_offset_runs :
  name_readable Samples.no_offset_member = true /\
  emit_class "A" Samples.A_struct
    = (["final class A {"; "  public static final int a = 0x0;"],
       Raise (KeyError "DW_AT_data_member_location")) /\
  name_readable Samples.accented_no_offset_member = false /\
  emit_class "A" Samples.A_accented
    = (["final class A {"; "  public static final int a = 0x0;"],
       Raise UnicodeDecodeError).
Proof. vm_compute. repeat split. Qed.

(** ** The index *)

Lemma build_index_unfold (cus : list CU) :
  build_index cus = index_loop empty_index (flat_map iter_DIEs cus).
Proof. reflexivity. Qed.

Lemma index_loop_snoc (dies : list DIE) (d : DIE) :
  forall ix : Index,
    index_loop ix (dies ++ [d])
    = let? ix' := index_loop ix dies in index_DIE ix' d.
Proof.
  induction dies as [| d0 dies IH]; intros ix; cbn.
  - destruct (index_DIE ix d); reflexivity.
  - destruct (index_DIE ix d0) as [ix0 | e | fmt args]; cbn;
      [apply IH | reflexivity | reflexivity].
Qed.

Lemma last_such_snoc (p : DIE -> bool) (dies : list DIE) (d : DIE) :
  last_such p (dies ++ [d]) = if p d then Some d else last_such p dies.
Proof.
  unfold last_such. rewrite filter_app. cbn [filter]. unfold filter at 2.
  cbn. destruct (p d) eqn:Hp.
  - rewrite decide_True by reflexivity. apply last_snoc.
  - rewrite decide_False by discriminate. rewrite app_nil_r. reflexivity.
Qed.

Lemma lookup_insert_name (m : gmap string DIE) (n k : string) (d : DIE) :
  <[n := d]> m !! k = if String.eqb n k then Some d else m !! k.
Proof.
  destruct (String.eqb_spec n k) as [-> | Hne].
  - apply lookup_insert_eq.
  - apply lookup_insert_ne, Hne.
Qed.

Lemma lookup_insert_offset (m : gmap Z DIE) (o k : Z) (d : DIE) :
  <[o := d]> m !! k = if Z.eqb o k then Some d else m !! k.
Proof.
  destruct (Z.eqb_spec o k) as [-> | Hne].
  - apply lookup_insert_eq.
  - apply lookup_insert_ne, Hne.
Qed.

(** One turn of the loop body, read as three table updates. *)
Lemma index_DIE_spec (ix : Index) (d : DIE) :
  indexable d ->
  exists ix' : Index,
    index_DIE ix d = Ok ix' /\
    (forall n, structs_by_name ix' !! n
               = if is_struct d && named n d then Some d
                 else structs_by_name ix !! n) /\
    (forall n, typedefs_by_name ix' !! n
               = if is_typedef d && named n d then Some d
                 else typedefs_by_name ix !! n) /\
    (forall k, structs_by_offset ix' !! k
               = if is_struct d && Z.eqb (offset d) k then Some d
                 else structs_by_offset ix !! k).
Proof.
  unfold indexable, name_readable, index_DIE, index_typedef, index_struct,
    is_struct, is_typedef, named.
  intros Hr.
  destruct (String.eqb (tag d) "DW_TAG_typedef");
    destruct (String.eqb (tag d) "DW_TAG_structure_type");
    cbn in Hr |- *;
    try (destruct (DIE_to_name d) as [[m |] | e | fmt args];
         [| | discriminate (Hr eq_refl) | discriminate (Hr eq_refl)]);
    cbn; eexists; (split; [reflexivity |]); cbn;
    repeat split; intros;
    rewrite ?lookup_insert_name, ?lookup_insert_offset; reflexivity.
Qed.

(** C8: over any sequence of records whose typedef and struct names can be
    read, the loop returns an index in which a struct name (a typedef
    name) is mapped to the last structure-type (typedef) record of the
    sequence that carries it, and an offset to the last structure-type
    record at that offset; so every structure-type record, named or not,
    has its offset among the keys of [structs_by_offset]. *)
Theorem index_is_last_one_wins (dies : list DIE) :
  Forall indexable dies ->
  exists ix : Index,
    index_loop empty_index dies = Ok ix /\
    (forall n, structs_by_name ix !! n
               = last_such (fun d => is_struct d && named n d) dies) /\
    (forall n, typedefs_by_name ix !! n
               = last_such (fun d => is_typedef d && named n d) dies) /\
    (forall k, structs_by_offset ix !! k
               = last_such (fun d => is_struct d && Z.eqb (offset d) k) dies) /\
    (forall d, d ∈ dies -> is_struct d = true ->
               exists d', structs_by_offset ix !! offset d = Some d' /\
                          d' ∈ dies /\ is_struct d' = true /\
                          offset d' = offset d).
Proof.
  intros Hr.
  assert (H : exists ix : Index,
    index_loop empty_index dies = Ok ix /\
    (forall n, structs_by_name ix !! n
               = last_such (fun d => is_struct d && named n d) dies) /\
    (forall n, typedefs_by_name ix !! n
               = last_such (fun d => is_typedef d && named n d) dies) /\
    (forall k, structs_by_offset ix !! k
               = last_such (fun d => is_struct d && Z.eqb (offset d) k) dies)).
  { induction dies as [| d dies IH] using rev_ind.
    - exists empty_index. cbn. repeat split; intros; apply lookup_empty.
    - apply Forall_app in Hr as [Hdies Hd]. rewrite Forall_singleton in Hd.
      destruct (IH Hdies) as (ix & Hix & Hn & Ht & Ho).
      destruct (index_DIE_spec ix d Hd) as (ix' & Hix' & Hn' & Ht' & Ho').
      exists ix'. rewrite index_loop_snoc, Hix. cbn.
      split; [exact Hix' |].
      repeat split; intros; rewrite last_such_snoc.
      + rewrite Hn', Hn. reflexivity.
      + rewrite Ht', Ht. reflexivity.
      + rewrite Ho', Ho. reflexivity. }
  destruct H as (ix & Hix & Hn & Ht & Ho). exists ix.
  repeat (split; [assumption |]).
  intros d Hin Hs. rewrite Ho. unfold last_such.
  assert (Hf : d ∈ filter (fun d0 => is_struct d0 && Z.eqb (offset d0) (offset d)
                                     = true) dies).
  { apply list_elem_of_filter. split; [| exact Hin].
    rewrite Hs, Z.eqb_refl. reflexivity. }
  destruct (last (filter (fun d0 => is_struct d0 && Z.eqb (offset d0) (offset d)
                                    = true) dies)) as [d' |] eqn:Hl.
  - exists d'. split; [reflexivity |].
    apply last_Some_elem_of, list_elem_of_filter in Hl as [Hp Hin'].
    apply andb_true_iff in Hp as [Hs' Ho']. apply Z.eqb_eq in Ho'.
    repeat split; assumption.
  - apply last_None in Hl. rewrite Hl in Hf. inversion Hf.
Qed.

Lemma dup_elf_indexable :
  Forall indexable (iter_all (get_dwarf_info Samples.dup_elf)).
Proof.
  repeat constructor; unfold indexable; intros _; vm_compute; reflexivity.
Defined.

Lemma index_is_last_one_wins_witness :
  Forall indexable (iter_all (get_dwarf_info Samples.dup_elf)) /\
  exists ix : Index,
    index_loop empty_index (iter_all (get_dwarf_info Samples.dup_elf)) = Ok ix /\
    (forall n, structs_by_name ix !! n
               = last_such (fun d => is_struct d && named n d)
                   (iter_all (get_dwarf_info Samples.dup_elf))) /\
    (forall n, typedefs_by_name ix !! n
               = last_such (fun d => is_typedef d && named n d)
                   (iter_all (get_dwarf_info Samples.dup_elf))) /\
    (forall k, structs_by_offset ix !! k
               = last_such (fun d => is_struct d && Z.eqb (offset d) k)
                   (iter_all (get_dwarf_info Samples.dup_elf))) /\
    (forall d, d ∈ iter_all (get_dwarf_info Samples.dup_elf) ->
               is_struct d = true ->
               exists d', structs_by_offset ix !! offset d = Some d' /\
                          d' ∈ iter_all (get_dwarf_info Samples.dup_elf) /\
                          is_struct d' = true /\
                          offset d' = offset d).
Proof.
  split; [exact dup_elf_indexable |].
  exact (index_is_last_one_wins _ dup_elf_indexable).
Defined.

(** On the sample the second unit's records win, the anonymous struct is
    reachable by its offset, and the run prints the second layout. *)
Example dup_elf_index :
  structs_by_name (Samples.index_of Samples.dup_elf) !! "D"
    = Some Samples.D_second /\
  typedefs_by_name (Samples.index_of Samples.dup_elf) !! "D_t"
    = Some Samples.D_t_second /\
  structs_by_offset (Samples.index_of Samples.dup_elf) !! 20
    = Some Samples.D_first /\
  structs_by_offset (Samples.index_of Samples.dup_elf) !! 140
    = Some Samples.anon_second /\
  main Samples.dup_elf "D_t"
    = (["final class D_t {"; "  public static final int a = 0x0;";
        "  public static final int b = 0x4;"; "}"], Ok tt).
Proof. vm_compute. repeat split. Qed.

(** A name that does not decode stops the loop: no index is built. *)
Example undecodable_name_stops_the_loop :
  main (mkELF true
          [Samples.compile_unit 0
             [mkDIE "DW_TAG_structure_type"
                    (Samples.attrs [("DW_AT_name", PyBytes [x63; xc3; xa9])])
                    20 0 []]]) "S"
  = ([], Raise UnicodeDecodeError).
Proof. vm_compute. reflexivity. Qed.

(** ** Formatting *)

Example format_x_samples :
  format_x 0 = "0" /\ format_x 255 = "ff" /\ format_x 4096 = "1000" /\
  format_x (-5) = "-5".
Proof. repeat split. Qed.

(** A member location in block form (a list of operation bytes) cannot be
    formatted with [%x]. *)
Example block_form_location_is_a_type_error :
  emit_class "B"
    (Samples.struct_type 0 20 (Some "B")
       [mkDIE "DW_TAG_member"
              (Samples.attrs [Samples.name_attr "f";
                              ("DW_AT_data_member_location", PyList [35; 0])])
              25 0 []])
  = (["final class B {"], Raise TypeError).
Proof. vm_compute. reflexivity. Qed.

(** A child that is no member ends the run through [die], after the
    header. *)
Example non_member_child_dies :
  stdout (emit_class "N"
    (Samples.struct_type 0 20 (Some "N") [Samples.base_type 0 25 "int"]))
  = ["final class N {"] /\
  outcome (emit_class "N"
    (Samples.struct_type 0 20 (Some "N") [Samples.base_type 0 25 "int"]))
  = Die "unknown child of struct DIE: %r" [ArgDIE (Samples.base_type 0 25 "int")].
Proof. vm_compute. split; reflexivity. Qed.

(** Without debug information nothing is printed. *)
Example no_debug_info (cus : list CU) (name : string) :
  main (mkELF false cus) name
  = ([], Die "file does not contain debug information" []).
Proof. reflexivity. Qed.

(** * Further properties of the script *)

(** ** What one turn of the member loop can do *)

Lemma DIE_to_name_cases (d : DIE) :
  (exists n, DIE_to_name d = Ok n) \/
  DIE_to_name d = Raise UnicodeDecodeError \/
  DIE_to_name d = Raise AttributeError.
Proof.
  unfold DIE_to_name, value_decode_ascii, decode_ascii.
  destruct (attributes d !! "DW_AT_name") as [[[n | b | l]] |]; cbn; eauto.
  destruct (forallb _ b); cbn; eauto.
Qed.

Lemma tag_member_eqb (c : DIE) :
  tag c = "DW_TAG_member" -> String.eqb (tag c) "DW_TAG_member" = true.
Proof. intros ->. apply String.eqb_refl. Qed.

(** The loop body either prints one constant and goes on, or prints
    nothing and ends the run. *)
Lemma emit_child_cases (c : DIE) :
  (emittable c /\
   exists (n : option string) (off : Z),
     emit_child c
     = (["  public static final int " +:+ format_s n +:+ " = 0x"
         +:+ format_x off +:+ ";"], Ok tt)) \/
  (~ emittable c /\
   ((tag c <> "DW_TAG_member" /\
     emit_child c = ([], Die "unknown child of struct DIE: %r" [ArgDIE c])) \/
    emit_child c = ([], Raise (KeyError "DW_AT_data_member_location")) \/
    emit_child c = ([], Raise TypeError) \/
    emit_child c = ([], Raise UnicodeDecodeError) \/
    emit_child c = ([], Raise AttributeError))).
Proof.
  unfold emittable, name_readable, emit_child.
  destruct (String.eqb_spec (tag c) "DW_TAG_member") as [Ht | Ht].
  2:{ right. split; [intros (H & _); contradiction | left; split; auto]. }
  destruct (DIE_to_name_cases c) as [[n Hn] | [Hn | Hn]]; rewrite Hn.
  2,3: right; split; [intros (_ & H & _); discriminate H | cbn; auto 6].
  rewrite pbind_lift_Ok. unfold getitem.
  destruct (attributes c !! "DW_AT_data_member_location") as [[v] |] eqn:Hl.
  2:{ right. split; [| cbn; auto].
      intros (_ & _ & a & k & H & _). discriminate H. }
  rewrite pbind_lift_Ok. cbn [value format_member].
  destruct v as [k | b | l].
  - left. split; [| exists n, k; reflexivity].
    split; [exact Ht |]. split; [reflexivity |]. eauto.
  - right. split; [| cbn; auto 6].
    intros (_ & _ & a & k & H & Hv). injection H as <-. discriminate Hv.
  - right. split; [| cbn; auto 6].
    intros (_ & _ & a & k & H & Hv). injection H as <-. discriminate Hv.
Qed.

Lemma emit_children_stop (c : DIE) (rest : list DIE) (r : result unit) :
  emit_child c = ([], r) -> r <> Ok tt ->
  emit_children (c :: rest) = ([], r).
Proof.
  intros H Hr. cbn [emit_children]. rewrite H.
  destruct r as [[] | e | fmt args]; [contradiction | reflexivity ..].
Qed.

(** X1: a child of the struct that is no member record ends the run
    through [die('unknown child of struct DIE: %r', child)], with exit
    status 1.  The header and the constants of the members before it are
    on standard output; the members after it and the closing brace are not
    printed, and the name of the child is not read. *)
Theorem unknown_child_dies_after_partial_output
    (name : string) (s : DIE) (pre : list DIE) (pairs : list (string * Z))
    (c : DIE) (post : list DIE) :
  children s = pre ++ c :: post ->
  Forall2 member_record pre pairs ->
  tag c <> "DW_TAG_member" ->
  emit_class name s
    = (format_header name :: map member_line pairs,
       Die "unknown child of struct DIE: %r" [ArgDIE c]) /\
  exit_status (emit_class name s) = 1.
Proof.
  intros Hch Hpre Htag.
  assert (Hc : emit_children (c :: post)
               = ([], Die "unknown child of struct DIE: %r" [ArgDIE c])).
  { apply emit_children_stop; [| discriminate].
    unfold emit_child. destruct (String.eqb_spec (tag c) "DW_TAG_member");
      [contradiction | reflexivity]. }
  assert (He : emit_class name s
    = (format_header name :: map member_line pairs,
       Die "unknown child of struct DIE: %r" [ArgDIE c])).
  { rewrite emit_class_unfold, Hch, (emit_children_members _ _ Hpre), Hc.
    cbn. rewrite !app_nil_r. reflexivity. }
  split; [exact He |]. unfold exit_status. rewrite He. reflexivity.
Qed.

Lemma unknown_child_dies_after_partial_output_witness :
  children Samples.N_struct
    = [Samples.member 0 22 "a" 0]
      ++ Samples.base_type 0 27 "int" :: [Samples.member 0 33 "c" 8] /\
  Forall2 member_record [Samples.member 0 22 "a" 0] [("a", 0)] /\
  tag (Samples.base_type 0 27 "int") <> "DW_TAG_member" /\
  emit_class "N" Samples.N_struct
    = (format_header "N" :: map member_line [("a", 0)],
       Die "unknown child of struct DIE: %r"
           [ArgDIE (Samples.base_type 0 27 "int")]) /\
  exit_status (emit_class "N" Samples.N_struct) = 1.
Proof.
  assert (H1 : children Samples.N_struct
    = [Samples.member 0 22 "a" 0]
      ++ Samples.base_type 0 27 "int" :: [Samples.member 0 33 "c" 8])
    by reflexivity.
  assert (H2 : Forall2 member_record [Samples.member 0 22 "a" 0] [("a", 0)]).
  { repeat constructor; cbn; eexists; split; reflexivity. }
  assert (H3 : tag (Samples.base_type 0 27 "int") <> "DW_TAG_member")
    by (cbn; discriminate).
  repeat (split; [assumption |]).
  exact (unknown_child_dies_after_partial_output "N" Samples.N_struct
           _ _ _ _ H1 H2 H3).
Defined.

(** ** When the member loop succeeds *)

Lemma emit_children_Ok_iff (cs : list DIE) :
  (outcome (emit_children cs) = Ok tt <-> Forall emittable cs) /\
  (outcome (emit_children cs) = Ok tt ->
   length (stdout (emit_children cs)) = length cs) /\
  Forall (fun line => exists rest, line = "  public static final int " +:+ rest)
         (stdout (emit_children cs)).
Proof.
  induction cs as [| c cs (IHiff & IHlen & IHlines)].
  - cbn. repeat split; auto.
  - destruct (emit_child_cases c) as [(Hc & n & off & He) | (Hc & He)].
    + rewrite (emit_children_cons c cs _ He). cbn [stdout outcome fst snd].
      split; [| split].
      * rewrite Forall_cons. tauto.
      * intros H. cbn [length]. rewrite (IHlen H). reflexivity.
      * constructor; [| exact IHlines]. eexists. reflexivity.
    + assert (Hstop : exists r, emit_children (c :: cs) = ([], r) /\ r <> Ok tt).
      { destruct He as [[_ He] | [He | [He | [He | He]]]];
          eexists; (split; [apply emit_children_stop;
                            [exact He | discriminate] | discriminate]). }
      destruct Hstop as (r & -> & Hr). cbn [stdout outcome fst snd].
      split; [| split].
      * split; [intros H; contradiction |].
        intros H. apply Forall_cons in H as [H _]. contradiction.
      * intros H. contradiction.
      * constructor.
Qed.

(** X2: the member loop runs to its end exactly when every child of the
    struct is a member whose name can be read (or is absent) and whose
    [DW_AT_data_member_location] is an integer; it has then printed one
    line per child, so the block has as many constants as the struct has
    children: no child is skipped. *)
Theorem block_succeeds_iff_all_children_emittable (name : string) (s : DIE) :
  (outcome (emit_class name s) = Ok tt <-> Forall emittable (children s)) /\
  (outcome (emit_class name s) = Ok tt ->
   length (stdout (emit_class name s)) = (length (children s) + 2)%nat).
Proof.
  destruct (emit_children_Ok_iff (children s)) as (Hiff & Hlen & _).
  rewrite emit_class_unfold. cbn [stdout outcome fst snd].
  split; [exact Hiff |]. intros H. specialize (Hlen H). rewrite H.
  cbn [length]. rewrite length_app, Hlen. cbn. lia.
Qed.

(** X3: whatever the file and the name, the output of a run is empty or
    starts with the header of the queried name, and its last line is the
    closing brace exactly when the run succeeds: a block cut short by a
    failure is never closed. *)
Theorem closing_brace_iff_success (elf : ELFFile) (name : string) :
  (stdout (main elf name) = [] \/
   head (stdout (main elf name)) = Some (format_header name)) /\
  (outcome (main elf name) = Ok tt <->
   last (stdout (main elf name)) = Some "}").
Proof.
  assert (Hclass : forall s,
    head (stdout (emit_class name s)) = Some (format_header name) /\
    (outcome (emit_class name s) = Ok tt <->
     last (stdout (emit_class name s)) = Some "}")).
  { intros s. rewrite emit_class_unfold. cbn [stdout outcome fst snd head].
    split; [reflexivity |].
    destruct (emit_children_Ok_iff (children s)) as (_ & _ & Hlines).
    destruct (outcome (emit_children (children s))) as [[] | e | fmt args].
    - split; [intros _ | reflexivity].
      rewrite app_comm_cons. apply last_snoc.
    - rewrite app_nil_r. split; [discriminate |]. intros H. exfalso.
      apply last_Some_elem_of in H. apply elem_of_cons in H as [H | H].
      + discriminate H.
      + rewrite Forall_forall in Hlines. destruct (Hlines _ H) as [rest Hr].
        discriminate Hr.
    - rewrite app_nil_r. split; [discriminate |]. intros H. exfalso.
      apply last_Some_elem_of in H. apply elem_of_cons in H as [H | H].
      + discriminate H.
      + rewrite Forall_forall in Hlines. destruct (Hlines _ H) as [rest Hr].
        discriminate Hr. }
  unfold main. destruct (has_dwarf_info elf).
  2:{ cbn. split; [left; reflexivity | split; discriminate]. }
  destruct (build_index (get_dwarf_info elf)) as [ix | e | fmt args].
  2,3: cbn; (split; [left; reflexivity | split; discriminate]).
  rewrite pbind_lift_Ok. unfold query.
  destruct (resolve_struct ix name) as [s | e | fmt args].
  2,3: cbn; (split; [left; reflexivity | split; discriminate]).
  rewrite pbind_lift_Ok. destruct (Hclass s) as [Hh Hl].
  split; [right; exact Hh | exact Hl].
Qed.

(** ** The ways a run can fail *)

Lemma index_loop_cases (dies : list DIE) :
  forall ix0 : Index,
    (exists ix, index_loop ix0 dies = Ok ix) \/
    index_loop ix0 dies = Raise UnicodeDecodeError \/
    index_loop ix0 dies = Raise AttributeError.
Proof.
  induction dies as [| d dies IH]; intros ix0; cbn; [eauto |].
  assert (Hd : (exists ix, index_DIE ix0 d = Ok ix) \/
               index_DIE ix0 d = Raise UnicodeDecodeError \/
               index_DIE ix0 d = Raise AttributeError).
  { unfold index_DIE, index_typedef, index_struct.
    destruct (String.eqb (tag d) "DW_TAG_typedef");
      destruct (String.eqb (tag d) "DW_TAG_structure_type");
      destruct (DIE_to_name_cases d) as [[[n |] Hn] | [Hn | Hn]];
      rewrite ?Hn; cbn; rewrite ?Hn; cbn; eauto. }
  destruct Hd as [[ix Hd] | [Hd | Hd]]; rewrite Hd; cbn; auto.
Qed.

Lemma resolve_struct_cases (ix : Index) (name : string) :
  (exists s, resolve_struct ix name = Ok s) \/
  resolve_struct ix name = StructNotFound name \/
  resolve_struct ix name = Raise (KeyError "DW_AT_type") \/
  resolve_struct ix name = Raise TypeError.
Proof.
  unfold resolve_struct, lookup_struct, getitem, py_add_int.
  destruct (structs_by_name ix !! name); cbn; [eauto |].
  destruct (typedefs_by_name ix !! name) as [td |]; cbn; [| auto].
  destruct (attributes td !! "DW_AT_type") as [[[v | b | l]] |]; cbn; auto.
  destruct (structs_by_offset ix !! (v + cu_offset td)); cbn; eauto.
Qed.

Lemma emit_children_failures (cs : list DIE) :
  loop_failure cs (outcome (emit_children cs)).
Proof.
  induction cs as [| c cs IH]; [exact I |].
  destruct (emit_child_cases c) as [(_ & n & off & He) | (_ & He)].
  - rewrite (emit_children_cons c cs _ He). cbn [outcome snd].
    unfold loop_failure in *.
    destruct (outcome (emit_children cs)) as [[] | [k | | |] | fmt args];
      auto.
    destruct IH as (Hf & c' & Ha & Hin & Ht). split; [exact Hf |].
    exists c'. repeat split; [exact Ha | right; exact Hin | exact Ht].
  - destruct He as [[Ht He] | [He | [He | [He | He]]]];
      rewrite (emit_children_stop c cs _ He) by discriminate;
      cbn; auto.
    split; [reflexivity |]. exists c. repeat split; [left | exact Ht].
Qed.

(** X4: the failures of a run.  [die] is reached with one of three
    messages: no debug information and struct not found, both before
    anything is printed, and unknown child, after the header; the only
    dictionary keys whose absence raises [KeyError] are [DW_AT_type]
    (nothing printed yet) and [DW_AT_data_member_location] (header
    printed).  A member or a type without [DW_AT_name] never raises. *)
Theorem failures_of_a_run (elf : ELFFile) (name : string) :
  match outcome (main elf name) with
  | Ok _ => True
  | Die fmt args =>
      (fmt = "file does not contain debug information" /\ args = [] /\
       has_dwarf_info elf = false /\ stdout (main elf name) = []) \/
      (fmt = "could not find struct %s" /\ args = [ArgStr name] /\
       stdout (main elf name) = []) \/
      (fmt = "unknown child of struct DIE: %r" /\
       (exists c, args = [ArgDIE c] /\ tag c <> "DW_TAG_member") /\
       head (stdout (main elf name)) = Some (format_header name))
  | Raise (KeyError k) =>
      (k = "DW_AT_type" /\ stdout (main elf name) = []) \/
      (k = "DW_AT_data_member_location" /\
       head (stdout (main elf name)) = Some (format_header name))
  | Raise _ => True
  end.
Proof.
  unfold main. destruct (has_dwarf_info elf) eqn:Hd.
  2:{ cbn. left. auto. }
  unfold build_index.
  destruct (index_loop_cases (iter_all (get_dwarf_info elf)) empty_index)
    as [[ix Hb] | [Hb | Hb]]; rewrite Hb; [| exact I | exact I].
  rewrite pbind_lift_Ok. unfold query.
  destruct (resolve_struct_cases ix name) as [[s Hr] | [Hr | [Hr | Hr]]];
    rewrite Hr.
  2:{ cbn. right. left. auto. }
  2:{ cbn. left. auto. }
  2:{ exact I. }
  rewrite pbind_lift_Ok, emit_class_unfold. cbn [stdout outcome fst snd head].
  pose proof (emit_children_failures (children s)) as Hf.
  unfold loop_failure in Hf.
  destruct (outcome (emit_children (children s))) as [[] | [k | | |] | fmt args];
    auto.
  destruct Hf as (Hfmt & c & Ha & _ & Ht). right. right.
  split; [exact Hfmt |]. split; [| reflexivity]. exists c. auto.
Qed.

(** ** A name that cannot be read *)

Lemma index_loop_app (pre post : list DIE) :
  forall ix0 : Index,
    index_loop ix0 (pre ++ post)
    = let? ix := index_loop ix0 pre in index_loop ix post.
Proof.
  induction pre as [| d pre IH]; intros ix0; cbn.
  - reflexivity.
  - destruct (index_DIE ix0 d) as [ix | e | fmt args]; cbn;
      [apply IH | reflexivity | reflexivity].
Qed.

Lemma index_loop_indexable (dies : list DIE) :
  Forall indexable dies ->
  forall ix0 : Index, exists ix, index_loop ix0 dies = Ok ix.
Proof.
  induction 1 as [| d dies Hd _ IH]; intros ix0; cbn; [eauto |].
  destruct (index_DIE_spec ix0 d Hd) as (ix & -> & _). cbn. apply IH.
Qed.

Lemma index_DIE_unreadable (ix : Index) (d : DIE) (e : PyExn) :
  is_typedef d || is_struct d = true ->
  DIE_to_name d = Raise e ->
  index_DIE ix d = Raise e.
Proof.
  unfold is_typedef, is_struct, index_DIE, index_typedef, index_struct.
  intros Ht Hn.
  destruct (String.eqb (tag d) "DW_TAG_typedef");
    destruct (String.eqb (tag d) "DW_TAG_structure_type");
    cbn in Ht |- *; rewrite ?Hn; cbn; rewrite ?Hn; try reflexivity.
  discriminate Ht.
Qed.

(** X5: the names of all typedef and structure-type records are decoded
    while the index is built, whatever name is queried.  When the first
    such record whose name cannot be decoded (bytes outside ASCII) is
    reached, the exception escapes: the run fails for every queried name,
    prints nothing, and does not reach [die]. *)
Theorem unreadable_type_name_fails_every_query
    (elf : ELFFile) (pre : list DIE) (d : DIE) (post : list DIE)
    (e : PyExn) :
  has_dwarf_info elf = true ->
  iter_all (get_dwarf_info elf) = pre ++ d :: post ->
  Forall indexable pre ->
  is_typedef d || is_struct d = true ->
  DIE_to_name d = Raise e ->
  (e = UnicodeDecodeError \/ e = AttributeError) /\
  forall name : string, main elf name = ([], Raise e).
Proof.
  intros Hd Hl Hpre Ht Hn. split.
  - destruct (DIE_to_name_cases d) as [[n H] | [H | H]];
      rewrite H in Hn; [discriminate | injection Hn; auto ..].
  - intros name. unfold main, build_index. rewrite Hd, Hl, index_loop_app.
    destruct (index_loop_indexable pre Hpre empty_index) as [ix ->].
    cbn. rewrite (index_DIE_unreadable ix d e Ht Hn). reflexivity.
Qed.

Lemma unreadable_type_name_fails_every_query_witness :
  has_dwarf_info Samples.accented_elf = true /\
  iter_all (get_dwarf_info Samples.accented_elf)
    = (top_DIE (Samples.compile_unit 64
                         [Samples.Point; Samples.accented_struct])
       :: iter_subtree Samples.Point)
      ++ Samples.accented_struct :: [] /\
  Forall indexable ((top_DIE (Samples.compile_unit 64
                         [Samples.Point; Samples.accented_struct])
       :: iter_subtree Samples.Point)) /\
  is_typedef Samples.accented_struct || is_struct Samples.accented_struct
    = true /\
  DIE_to_name Samples.accented_struct = Raise UnicodeDecodeError /\
  (UnicodeDecodeError = UnicodeDecodeError \/
   UnicodeDecodeError = AttributeError) /\
  forall name : string,
    main Samples.accented_elf name = ([], Raise UnicodeDecodeError).
Proof.
  assert (H1 : has_dwarf_info Samples.accented_elf = true) by reflexivity.
  assert (H2 : iter_all (get_dwarf_info Samples.accented_elf)
    = (top_DIE (Samples.compile_unit 64
                         [Samples.Point; Samples.accented_struct])
       :: iter_subtree Samples.Point)
      ++ Samples.accented_struct :: []) by reflexivity.
  assert (H3 : Forall indexable
                 ((top_DIE (Samples.compile_unit 64
                         [Samples.Point; Samples.accented_struct])
       :: iter_subtree Samples.Point))).
  { repeat constructor; unfold indexable; intros _; vm_compute; reflexivity. }
  assert (H4 : is_typedef Samples.accented_struct
               || is_struct Samples.accented_struct = true) by reflexivity.
  assert (H5 : DIE_to_name Samples.accented_struct = Raise UnicodeDecodeError)
    by reflexivity.
  repeat (split; [assumption |]).
  exact (unreadable_type_name_fails_every_query Samples.accented_elf
           _ _ _ _ H1 H2 H3 H4 H5).
Defined.

(** [struct Point] of that file is well formed, and yet cannot be
    queried. *)
Example accented_elf_Point :
  main Samples.accented_elf "Point" = ([], Raise UnicodeDecodeError) /\
  main (mkELF true [Samples.compile_unit 64 [Samples.Point]]) "Point"
    = (["final class Point {"; "  public static final int x = 0x0;";
        "  public static final int y = 0x4;"; "}"], Ok tt).
Proof. vm_compute. split; reflexivity. Qed.

(** ** Where the entries of the index come from *)

Lemma index_DIE_Ok_indexable (ix ix' : Index) (d : DIE) :
  index_DIE ix d = Ok ix' -> indexable d.
Proof.
  unfold indexable, name_readable, is_typedef, is_struct, index_DIE,
    index_typedef, index_struct.
  destruct (String.eqb (tag d) "DW_TAG_typedef");
    destruct (String.eqb (tag d) "DW_TAG_structure_type");
    destruct (DIE_to_name d) as [n | e | fmt args]; cbn;
    try discriminate; auto.
Qed.

Lemma named_true (n : string) (d : DIE) :
  named n d = true -> DIE_to_name d = Ok (Some n).
Proof.
  unfold named. destruct (DIE_to_name d) as [[m |] | e | fmt args];
    try discriminate.
  intros H. apply String.eqb_eq in H. subst m. reflexivity.
Qed.

Lemma index_sound_step (dies : list DIE) (ix ix' : Index) (d : DIE) :
  index_sound dies ix -> index_DIE ix d = Ok ix' ->
  index_sound (dies ++ [d]) ix'.
Proof.
  intros (Hn & Ht & Ho) Hd.
  destruct (index_DIE_spec ix d (index_DIE_Ok_indexable _ _ _ Hd))
    as (ix2 & Hd2 & Hn2 & Ht2 & Ho2).
  rewrite Hd in Hd2. injection Hd2 as <-.
  unfold is_struct, is_typedef in *.
  repeat split.
  all: try (rename select (_ !! _ = Some _) into Hl).
  all: rewrite ?Hn2, ?Ht2, ?Ho2 in Hl.
  all: match type of Hl with
       | (if ?b then _ else _) = _ => destruct b eqn:Hb
       end.
  all: try (injection Hl as <-; apply andb_true_iff in Hb as [Hb1 Hb2]).
  all: try (apply elem_of_app; right; apply list_elem_of_singleton;
            reflexivity).
  all: try (apply String.eqb_eq; assumption).
  all: try (apply named_true; assumption).
  all: try (apply Z.eqb_eq; assumption).
  all: try (apply elem_of_app; left).
  all: first [ apply (Hn _ _ Hl) | apply (Ht _ _ Hl) | apply (Ho _ _ Hl) ].
Qed.

Lemma index_loop_sound (dies : list DIE) :
  forall ix, index_loop empty_index dies = Ok ix -> index_sound dies ix.
Proof.
  induction dies as [| d dies IH] using rev_ind; intros ix.
  - cbn. intros [= <-]. repeat split; cbn in *;
      rewrite lookup_empty in *; discriminate.
  - rewrite index_loop_snoc.
    destruct (index_loop empty_index dies) as [ix0 | e | fmt args];
      cbn; [| discriminate | discriminate].
    intros Hd. apply (index_sound_step dies ix0 ix d); [apply IH |]; auto.
Qed.

(** X6: in an index built by the loop, every entry is a record of the
    file: a structure-type record under its own name or its own offset, a
    typedef record under its own name.  So a name that resolves, directly
    or through a typedef, always resolves to a structure-type record of
    the file, never to a record of another kind. *)
Theorem resolved_record_is_a_struct_of_the_file
    (cus : list CU) (ix : Index) :
  build_index cus = Ok ix ->
  index_sound (iter_all cus) ix /\
  forall (name : string) (s : DIE),
    resolve_struct ix name = Ok s ->
    s ∈ iter_all cus /\ tag s = "DW_TAG_structure_type".
Proof.
  intros Hb. pose proof (index_loop_sound _ _ Hb) as Hs.
  split; [exact Hs |]. destruct Hs as (Hn & _ & Ho).
  intros name s. unfold resolve_struct, lookup_struct.
  destruct (structs_by_name ix !! name) as [s0 |] eqn:Hs0; cbn.
  - intros [= <-]. destruct (Hn _ _ Hs0) as (? & ? & _). auto.
  - destruct (typedefs_by_name ix !! name) as [td |]; cbn; [| discriminate].
    destruct (getitem (attributes td) "DW_AT_type") as [a | e | f g]; cbn;
      [| discriminate | discriminate].
    destruct (py_add_int (value a) (cu_offset td)) as [k | e | f g]; cbn;
      [| discriminate | discriminate].
    destruct (structs_by_offset ix !! k) as [s1 |] eqn:Hs1; cbn;
      [| discriminate].
    intros [= <-]. destruct (Ho _ _ Hs1) as (? & ? & _). auto.
Qed.

Lemma resolved_record_is_a_struct_of_the_file_witness :
  build_index (get_dwarf_info Samples.point_elf)
    = Ok (Samples.index_of Samples.point_elf) /\
  index_sound (iter_all (get_dwarf_info Samples.point_elf))
              (Samples.index_of Samples.point_elf) /\
  forall (name : string) (s : DIE),
    resolve_struct (Samples.index_of Samples.point_elf) name = Ok s ->
    s ∈ iter_all (get_dwarf_info Samples.point_elf) /\
    tag s = "DW_TAG_structure_type".
Proof.
  assert (H : build_index (get_dwarf_info Samples.point_elf)
              = Ok (Samples.index_of Samples.point_elf))
    by (vm_compute; reflexivity).
  split; [exact H |].
  exact (resolved_record_is_a_struct_of_the_file _ _ H).
Defined.

(** ** Names *)

(** X7: [DIE_to_name] returns the name [s] exactly when the record has a
    [DW_AT_name] whose value is the bytes of [s] and all of them are below
    128: the string the script indexes and prints re-encodes to the bytes
    stored in the file, so records with different name bytes never share a
    key. *)
Theorem DIE_to_name_round_trip (d : DIE) (s : string) :
  DIE_to_name d = Ok (Some s) <->
  exists a : AttributeValue,
    attributes d !! "DW_AT_name" = Some a /\
    value a = PyBytes (list_byte_of_string s) /\
    forallb (fun c => (Byte.to_N c <? 128)%N) (list_byte_of_string s) = true.
Proof.
  unfold DIE_to_name, value_decode_ascii, decode_ascii. split.
  - destruct (attributes d !! "DW_AT_name") as [[[n | b | l]] |]; cbn;
      try discriminate.
    destruct (forallb _ b) eqn:Hb; cbn; [| discriminate].
    intros [= <-]. exists (mkAttr (PyBytes b)).
    rewrite list_byte_of_string_of_list_byte. auto.
  - intros ([v] & -> & Hv & Hb). cbn in Hv. subst v. cbn. rewrite Hb. cbn.
    rewrite string_of_list_byte_of_string. reflexivity.
Qed.

(** * Properties of fetch_deps *)

Section FetchDepsFacts.

Import FetchDeps.

Variable w : World.

Lemma check_call_zero (argv : list string) :
  returncode w argv = Some 0 -> check_call w argv = ([Exec argv], Done tt).
Proof. unfold check_call. intros ->. reflexivity. Qed.

Lemma check_call_nonzero (argv : list string) :
  returncode w argv <> Some 0 ->
  exists e, check_call w argv = ([Exec argv], Raised e) /\
            (e = OSError \/ exists code, code <> 0 /\
                                         e = CalledProcessError code argv).
Proof.
  unfold check_call. intros H.
  destruct (returncode w argv) as [code |]; [| eauto].
  destruct (Z.eqb_spec code 0) as [-> | Hne]; [contradiction | eauto 6].
Qed.

Lemma bind_Done {A B : Type} (tr : list Event) (a : A) (k : A -> Run B) :
  bind (tr, Done a) k = (tr ++ trace (k a), ending (k a)).
Proof. unfold bind, trace, ending. destruct (k a). reflexivity. Qed.

Lemma fetch_all_fetched (items : list (string * JSON)) :
  Forall (fetched w) items ->
  forall rest,
    fetch_all w (items ++ rest)
    = (map fetch_event items ++ trace (fetch_all w rest),
       ending (fetch_all w rest)).
Proof.
  induction 1 as [| [name dep] items Hp _ IH]; intros rest.
  - cbn. destruct (fetch_all w rest). reflexivity.
  - cbn [app fetch_all map]. unfold fetch_maven_library.
    unfold fetched in Hp. cbn [fst] in Hp.
    rewrite (check_call_zero _ Hp), bind_Done, IH. reflexivity.
Qed.

Lemma fetch_all_Done (items : list (string * JSON)) :
  ending (fetch_all w items) = Done tt -> Forall (fetched w) items.
Proof.
  induction items as [| [name dep] items IH]; [constructor |].
  cbn [fetch_all]. unfold fetch_maven_library, check_call.
  destruct (returncode w (fetch_cmd name)) as [code |] eqn:Hc;
    [| discriminate].
  destruct (Z.eqb_spec code 0) as [-> | Hne]; [| discriminate].
  rewrite bind_Done. cbn [ending snd]. intros H.
  constructor; [exact Hc | apply IH, H].
Qed.

Lemma main_after_build :
  returncode w build_cmd = Some 0 ->
  main w
  = match read w deps_json_path with
    | Json (JObject items) =>
        (Exec build_cmd :: Open deps_json_path :: trace (fetch_all w items),
         ending (fetch_all w items))
    | Json _ => ([Exec build_cmd; Open deps_json_path], Raised NoIteritems)
    | Garbage => ([Exec build_cmd; Open deps_json_path], Raised ValueError)
    | Missing => ([Exec build_cmd; Open deps_json_path], Raised IOError)
    end.
Proof.
  intros Hb. unfold main. rewrite (check_call_zero _ Hb), bind_Done.
  unfold load. destruct (read w deps_json_path) as [| | j]; [reflexivity ..|].
  rewrite bind_Done. unfold iteritems.
  destruct j; try reflexivity. rewrite bind_Done. reflexivity.
Qed.

Lemma failed_build_fetches_nothing_aux :
  returncode w build_cmd <> Some 0 ->
  trace (main w) = [Exec build_cmd] /\
  exists e, ending (main w) = Raised e /\
            (e = OSError \/
             exists code, code <> 0 /\ e = CalledProcessError code build_cmd).
Proof.
  intros H. destruct (check_call_nonzero _ H) as (e & He & Hk).
  unfold main. rewrite He. cbn. split; [reflexivity |]. eauto.
Qed.

(** X8: when the build command does not end with status 0, it is the only
    thing the script does: the file is not opened and nothing is fetched.
    The script ends in [CalledProcessError] carrying the exit status of
    the build and the build command, and in [OSError] exactly when [buck]
    cannot be started. *)
Theorem failed_build_fetches_nothing :
  returncode w build_cmd <> Some 0 ->
  trace (main w) = [Exec build_cmd] /\
  ending (main w)
  = match returncode w build_cmd with
    | None => Raised OSError
    | Some code => Raised (CalledProcessError code build_cmd)
    end.
Proof.
  intros H. unfold main, check_call.
  destruct (returncode w build_cmd) as [code |]; [| split; reflexivity].
  destruct (Z.eqb_spec code 0) as [-> | Hne]; [contradiction |].
  split; reflexivity.
Qed.

(** X9: the script runs to its end exactly when the build ends with
    status 0, the file holds a JSON object and the fetch of every key of
    it ends with status 0.  It has then started the build, opened the
    file, and fetched every key once, in the order of the dictionary's
    items, and nothing else. *)
Theorem run_succeeds_iff_all_fetched :
  (ending (main w) = Done tt <->
   returncode w build_cmd = Some 0 /\
   exists items, read w deps_json_path = Json (JObject items) /\
                 Forall (fetched w) items) /\
  (forall items,
     ending (main w) = Done tt ->
     read w deps_json_path = Json (JObject items) ->
     trace (main w)
     = Exec build_cmd :: Open deps_json_path :: map fetch_event items).
Proof.
  assert (Hok : forall items, Forall (fetched w) items ->
            fetch_all w items = (map fetch_event items, Done tt)).
  { intros items H. pose proof (fetch_all_fetched items H []) as E.
    rewrite !app_nil_r in E. exact E. }
  split; [split |].
  - intros H.
    destruct (decide (returncode w build_cmd = Some 0)) as [Hb | Hb].
    + split; [exact Hb |]. rewrite (main_after_build Hb) in H.
      destruct (read w deps_json_path) as [| | [items | | | | |]];
        try discriminate H.
      exists items. split; [reflexivity | apply fetch_all_Done, H].
    + destruct (failed_build_fetches_nothing_aux Hb) as (_ & e & E & _).
      rewrite E in H. discriminate H.
  - intros (Hb & items & Hr & Hf). rewrite (main_after_build Hb), Hr.
    rewrite (Hok items Hf). reflexivity.
  - intros items H Hr.
    destruct (decide (returncode w build_cmd = Some 0)) as [Hb | Hb].
    + rewrite (main_after_build Hb), Hr in H |- *. cbn [trace ending fst snd] in *.
      rewrite (Hok items (fetch_all_Done items H)). reflexivity.
    + destruct (failed_build_fetches_nothing_aux Hb) as (_ & e & E & _).
      rewrite E in H. discriminate H.
Qed.

(** X10: the loop stops at the first dependency whose fetch does not end
    with status 0: the dependencies before it have been fetched, this
    fetch has been started, and no dependency after it is fetched. *)
Theorem first_failed_fetch_stops_the_loop
    (pre : list (string * JSON)) (name : string) (dep : JSON)
    (post : list (string * JSON)) :
  returncode w build_cmd = Some 0 ->
  read w deps_json_path = Json (JObject (pre ++ (name, dep) :: post)) ->
  Forall (fetched w) pre ->
  returncode w (fetch_cmd name) <> Some 0 ->
  trace (main w)
  = Exec build_cmd :: Open deps_json_path
      :: map fetch_event pre ++ [Exec (fetch_cmd name)] /\
  (ending (main w) = Raised OSError \/
   exists code, code <> 0 /\
     ending (main w) = Raised (CalledProcessError code (fetch_cmd name))).
Proof.
  intros Hb Hr Hpre Hn. rewrite (main_after_build Hb), Hr.
  rewrite (fetch_all_fetched pre Hpre). cbn [fetch_all trace ending fst snd].
  unfold fetch_maven_library.
  destruct (check_call_nonzero _ Hn) as (e & -> & Hk). cbn.
  split; [reflexivity |]. destruct Hk as [-> | (code & Hc & ->)]; eauto.
Qed.

(** X11: when the build succeeded but the file is absent, is not JSON, or
    holds a JSON value that is no object, the script ends in the matching
    exception right after opening the file: nothing is fetched. *)
Theorem unusable_file_fetches_nothing :
  returncode w build_cmd = Some 0 ->
  (forall items, read w deps_json_path <> Json (JObject items)) ->
  trace (main w) = [Exec build_cmd; Open deps_json_path] /\
  ending (main w)
  = match read w deps_json_path with
    | Missing => Raised IOError
    | Garbage => Raised ValueError
    | Json _ => Raised NoIteritems
    end.
Proof.
  intros Hb Hr. rewrite (main_after_build Hb).
  destruct (read w deps_json_path) as [| | [items | | | | |]];
    try (split; reflexivity).
  exfalso. apply (Hr items). reflexivity.
Qed.

Lemma fetch_all_trace_prefix (items : list (string * JSON)) :
  trace (fetch_all w items) `prefix_of` map fetch_event items.
Proof.
  induction items as [| [name dep] items IH]; [reflexivity |].
  cbn [fetch_all map]. unfold fetch_maven_library, check_call.
  destruct (returncode w (fetch_cmd name)) as [code |].
  - destruct (Z.eqb code 0).
    + rewrite bind_Done. cbn [trace fst app]. apply prefix_cons, IH.
    + cbn. apply prefix_cons, prefix_nil.
  - cbn. apply prefix_cons, prefix_nil.
Qed.

(** X12: in every world the script starts with the build command, and
    what it does is an initial part of the plan: the build, the opening
    of the file, then one fetch per key of the object in the file, in the
    order of its items.  It runs no other command, opens no other file
    and fetches nothing out of turn. *)
Theorem run_is_a_prefix_of_the_plan :
  head (trace (main w)) = Some (Exec build_cmd) /\
  trace (main w) `prefix_of` planned w.
Proof.
  unfold planned.
  destruct (decide (returncode w build_cmd = Some 0)) as [Hb | Hb].
  - rewrite (main_after_build Hb).
    destruct (read w deps_json_path) as [| | [items | | | | |]];
      cbn [trace fst head]; (split; [reflexivity |]);
      try reflexivity.
    do 2 apply prefix_cons. apply fetch_all_trace_prefix.
  - destruct (failed_build_fetches_nothing_aux Hb) as [-> _].
    cbn [head]. split; [reflexivity |]. apply prefix_cons, prefix_nil.
Qed.

End FetchDepsFacts.

Lemma failed_build_fetches_nothing_witness :
  FetchDeps.returncode FetchDeps.broken_build_world FetchDeps.build_cmd
    <> Some 0 /\
  FetchDeps.trace (FetchDeps.main FetchDeps.broken_build_world)
    = [FetchDeps.Exec FetchDeps.build_cmd] /\
  FetchDeps.ending (FetchDeps.main FetchDeps.broken_build_world)
  = match FetchDeps.returncode FetchDeps.broken_build_world
            FetchDeps.build_cmd with
    | None => FetchDeps.Raised FetchDeps.OSError
    | Some code =>
        FetchDeps.Raised (FetchDeps.CalledProcessError code FetchDeps.build_cmd)
    end.
Proof.
  assert (H : FetchDeps.returncode FetchDeps.broken_build_world
                FetchDeps.build_cmd <> Some 0)
    by (vm_compute; discriminate).
  split; [exact H |].
  exact (failed_build_fetches_nothing FetchDeps.broken_build_world H).
Defined.

(** The build of that world ends with status 1; a world without [buck]
    ends in [OSError]. *)
Example failed_build_runs :
  FetchDeps.main FetchDeps.broken_build_world
  = ([FetchDeps.Exec ["buck"; "build"; "deps:list-deps"]],
     FetchDeps.Raised
       (FetchDeps.CalledProcessError 1 ["buck"; "build"; "deps:list-deps"])) /\
  FetchDeps.main (FetchDeps.mkWorld (fun _ => None)
                                    (fun _ => FetchDeps.Missing))
  = ([FetchDeps.Exec ["buck"; "build"; "deps:list-deps"]],
     FetchDeps.Raised FetchDeps.OSError).
Proof. vm_compute. split; reflexivity. Qed.

Lemma first_failed_fetch_stops_the_loop_witness :
  FetchDeps.returncode (FetchDeps.sample_world (Some "jsr305"))
    FetchDeps.build_cmd = Some 0 /\
  FetchDeps.read (FetchDeps.sample_world (Some "jsr305"))
    FetchDeps.deps_json_path
  = FetchDeps.Json
      (FetchDeps.JObject
         ([("guava", FetchDeps.JObject [])]
          ++ ("jsr305", FetchDeps.JNull)
             :: [("junit", FetchDeps.JString "4.12")])) /\
  Forall (FetchDeps.fetched (FetchDeps.sample_world (Some "jsr305")))
         [("guava", FetchDeps.JObject [])] /\
  FetchDeps.returncode (FetchDeps.sample_world (Some "jsr305"))
    (FetchDeps.fetch_cmd "jsr305") <> Some 0 /\
  FetchDeps.trace (FetchDeps.main (FetchDeps.sample_world (Some "jsr305")))
  = FetchDeps.Exec FetchDeps.build_cmd
      :: FetchDeps.Open FetchDeps.deps_json_path
      :: map FetchDeps.fetch_event [("guava", FetchDeps.JObject [])]
         ++ [FetchDeps.Exec (FetchDeps.fetch_cmd "jsr305")] /\
  (FetchDeps.ending (FetchDeps.main (FetchDeps.sample_world (Some "jsr305")))
     = FetchDeps.Raised FetchDeps.OSError \/
   exists code, code <> 0 /\
     FetchDeps.ending (FetchDeps.main (FetchDeps.sample_world (Some "jsr305")))
     = FetchDeps.Raised
         (FetchDeps.CalledProcessError code (FetchDeps.fetch_cmd "jsr305"))).
Proof.
  assert (H1 : FetchDeps.returncode (FetchDeps.sample_world (Some "jsr305"))
                 FetchDeps.build_cmd = Some 0) by (vm_compute; reflexivity).
  assert (H2 : FetchDeps.read (FetchDeps.sample_world (Some "jsr305"))
                 FetchDeps.deps_json_path
    = FetchDeps.Json
        (FetchDeps.JObject
           ([("guava", FetchDeps.JObject [])]
            ++ ("jsr305", FetchDeps.JNull)
               :: [("junit", FetchDeps.JString "4.12")])))
    by (vm_compute; reflexivity).
  assert (H3 : Forall (FetchDeps.fetched (FetchDeps.sample_world (Some "jsr305")))
                      [("guava", FetchDeps.JObject [])])
    by (repeat constructor; vm_compute; reflexivity).
  assert (H4 : FetchDeps.returncode (FetchDeps.sample_world (Some "jsr305"))
                 (FetchDeps.fetch_cmd "jsr305") <> Some 0)
    by (vm_compute; discriminate).
  repeat (split; [assumption |]).
  exact (first_failed_fetch_stops_the_loop
           (FetchDeps.sample_world (Some "jsr305")) _ _ _ _ H1 H2 H3 H4).
Defined.

Lemma unusable_file_fetches_nothing_witness :
  FetchDeps.returncode FetchDeps.array_world FetchDeps.build_cmd = Some 0 /\
  (forall items,
     FetchDeps.read FetchDeps.array_world FetchDeps.deps_json_path
     <> FetchDeps.Json (FetchDeps.JObject items)) /\
  FetchDeps.trace (FetchDeps.main FetchDeps.array_world)
    = [FetchDeps.Exec FetchDeps.build_cmd;
       FetchDeps.Open FetchDeps.deps_json_path] /\
  FetchDeps.ending (FetchDeps.main FetchDeps.array_world)
  = match FetchDeps.read FetchDeps.array_world FetchDeps.deps_json_path with
    | FetchDeps.Missing => FetchDeps.Raised FetchDeps.IOError
    | FetchDeps.Garbage => FetchDeps.Raised FetchDeps.ValueError
    | FetchDeps.Json _ => FetchDeps.Raised FetchDeps.NoIteritems
    end.
Proof.
  assert (H1 : FetchDeps.returncode FetchDeps.array_world FetchDeps.build_cmd
               = Some 0) by reflexivity.
  assert (H2 : forall items,
     FetchDeps.read FetchDeps.array_world FetchDeps.deps_json_path
     <> FetchDeps.Json (FetchDeps.JObject items))
    by (intros items; cbn; discriminate).
  split; [exact H1 |]. split; [exact H2 |].
  exact (unusable_file_fetches_nothing FetchDeps.array_world H1 H2).
Defined.

(** The sample worlds, run. *)
Example fetch_deps_runs :
  FetchDeps.deps_json_path = "buck-out/gen/deps/list-deps/dependencies.json" /\
  FetchDeps.main (FetchDeps.sample_world None)
  = ([FetchDeps.Exec ["buck"; "build"; "deps:list-deps"];
      FetchDeps.Open "buck-out/gen/deps/list-deps/dependencies.json";
      FetchDeps.Exec ["buck"; "fetch"; "deps:guava"];
      FetchDeps.Exec ["buck"; "fetch"; "deps:jsr305"];
      FetchDeps.Exec ["buck"; "fetch"; "deps:junit"]], FetchDeps.Done tt) /\
  FetchDeps.main (FetchDeps.sample_world (Some "jsr305"))
  = ([FetchDeps.Exec ["buck"; "build"; "deps:list-deps"];
      FetchDeps.Open "buck-out/gen/deps/list-deps/dependencies.json";
      FetchDeps.Exec ["buck"; "fetch"; "deps:guava"];
      FetchDeps.Exec ["buck"; "fetch"; "deps:jsr305"]],
     FetchDeps.Raised
       (FetchDeps.CalledProcessError 3 ["buck"; "fetch"; "deps:jsr305"])).
Proof. vm_compute. repeat split. Qed.

(** * Typedef aliases and duplicated struct names *)

(** The name table of a built index, read off the sequence of records. *)
Lemma structs_by_name_of_built (dies : list DIE) (ix : Index) :
  index_loop empty_index dies = Ok ix ->
  forall n, structs_by_name ix !! n
            = last_such (fun d => is_struct d && named n d) dies.
Proof.
  revert ix. induction dies as [| d dies IH] using rev_ind; intros ix.
  - cbn. intros [= <-] n. apply lookup_empty.
  - rewrite index_loop_snoc.
    destruct (index_loop empty_index dies) as [ix0 | e | fmt args];
      cbn; [| discriminate | discriminate].
    intros Hd n.
    destruct (index_DIE_spec ix0 d (index_DIE_Ok_indexable _ _ _ Hd))
      as (ix2 & Hd2 & Hn2 & _).
    rewrite Hd in Hd2. injection Hd2 as <-.
    rewrite last_such_snoc, Hn2, (IH ix0 eq_refl). reflexivity.
Qed.

Lemma main_resolved (elf : ELFFile) (ix : Index) (name : string) (s : DIE) :
  has_dwarf_info elf = true ->
  build_index (get_dwarf_info elf) = Ok ix ->
  resolve_struct ix name = Ok s ->
  main elf name = emit_class name s.
Proof.
  intros Hd Hb Hr. unfold main. rewrite Hd, Hb, pbind_lift_Ok.
  apply query_resolved, Hr.
Qed.

(** C3 (counterexample): two units define [struct D] with different
    members and the first has [typedef struct D D_t].  The typedef
    resolves, at one level, to the indexed struct of the first unit, whose
    name is [D], and no struct is named [D_t]; yet the query [D_t] prints
    the member [a] and the query [D] the members [a] and [b] of the struct
    parsed last. *)
Lemma typedef_alias_differs_from_struct_name :
  structs_by_name (Samples.index_of Samples.alias_elf) !! "D_t" = None /\
  typedefs_by_name (Samples.index_of Samples.alias_elf) !! "D_t"
    = Some Samples.D_t_first /\
  attributes Samples.D_t_first !! "DW_AT_type" = Some (mkAttr (PyInt 20)) /\
  structs_by_offset (Samples.index_of Samples.alias_elf)
    !! (20 + cu_offset Samples.D_t_first) = Some Samples.D_first /\
  DIE_to_name Samples.D_first = Ok (Some "D") /\
  main Samples.alias_elf "D_t"
    = (["final class D_t {"; "  public static final int a = 0x0;"; "}"],
       Ok tt) /\
  main Samples.alias_elf "D"
    = (["final class D {"; "  public static final int a = 0x0;";
        "  public static final int b = 0x4;"; "}"], Ok tt) /\
  tail (stdout (main Samples.alias_elf "D_t"))
    <> tail (stdout (main Samples.alias_elf "D")).
Proof.
  repeat split; try (vm_compute; reflexivity).
  vm_compute. discriminate.
Qed.

(** C3, amended: in a file whose index is built, a typedef [T] that is no
    struct name and whose target offset is the key of the struct [S]
    makes the run print the block of the record [S]: when the children of
    [S] are member records carrying [pairs], exactly the constants of
    [pairs], in order.  A struct name [n] makes the run print the block of
    the last structure-type record of the file named [n]; when that record
    is [S] itself, the two runs print the same lines after the header and
    end the same way. *)
Theorem typedef_alias_prints_members_of_target
    (elf : ELFFile) (ix : Index) (T : string) (td : DIE)
    (a : AttributeValue) (v : Z) (S : DIE) :
  has_dwarf_info elf = true ->
  build_index (get_dwarf_info elf) = Ok ix ->
  structs_by_name ix !! T = None ->
  typedefs_by_name ix !! T = Some td ->
  attributes td !! "DW_AT_type" = Some a ->
  value a = PyInt v ->
  structs_by_offset ix !! (v + cu_offset td) = Some S ->
  main elf T = emit_class T S /\
  (forall pairs : list (string * Z),
     Forall2 member_record (children S) pairs ->
     main elf T
     = (format_header T :: map member_line pairs ++ ["}"], Ok tt)) /\
  (forall (n : string) (S' : DIE),
     last_such (fun d => is_struct d && named n d)
               (iter_all (get_dwarf_info elf)) = Some S' ->
     main elf n = emit_class n S' /\
     (S' = S ->
      tail (stdout (main elf T)) = tail (stdout (main elf n)) /\
      outcome (main elf T) = outcome (main elf n))).
Proof.
  intros Hd Hb Hs Ht Ha Hv Ho.
  assert (HT : main elf T = emit_class T S).
  { apply (main_resolved elf ix); [assumption | assumption |].
    unfold resolve_struct.
    rewrite (lookup_struct_typedef ix T td a v Hs Ht Ha Hv), Ho. reflexivity. }
  split; [exact HT |]. split.
  - intros pairs Hm. rewrite HT, emit_class_unfold.
    pose proof (emit_children_members _ _ Hm []) as H.
    rewrite app_nil_r in H. rewrite H. cbn. rewrite app_nil_r. reflexivity.
  - intros n S' Hl.
    assert (Hn : main elf n = emit_class n S').
    { apply (main_resolved elf ix); [assumption | assumption |].
      unfold resolve_struct.
      rewrite (lookup_struct_direct ix n S'); [reflexivity |].
      rewrite (structs_by_name_of_built _ _ Hb). exact Hl. }
    split; [exact Hn |]. intros ->.
    rewrite HT, Hn, !emit_class_unfold. split; reflexivity.
Qed.

Lemma typedef_alias_prints_members_of_target_witness :
  has_dwarf_info Samples.alias_elf = true /\
  build_index (get_dwarf_info Samples.alias_elf)
    = Ok (Samples.index_of Samples.alias_elf) /\
  structs_by_name (Samples.index_of Samples.alias_elf) !! "D_t" = None /\
  typedefs_by_name (Samples.index_of Samples.alias_elf) !! "D_t"
    = Some Samples.D_t_first /\
  attributes Samples.D_t_first !! "DW_AT_type" = Some (mkAttr (PyInt 20)) /\
  value (mkAttr (PyInt 20)) = PyInt 20 /\
  structs_by_offset (Samples.index_of Samples.alias_elf)
    !! (20 + cu_offset Samples.D_t_first) = Some Samples.D_first /\
  main Samples.alias_elf "D_t" = emit_class "D_t" Samples.D_first /\
  (forall pairs : list (string * Z),
     Forall2 member_record (children Samples.D_first) pairs ->
     main Samples.alias_elf "D_t"
     = (format_header "D_t" :: map member_line pairs ++ ["}"], Ok tt)) /\
  (forall (n : string) (S' : DIE),
     last_such (fun d => is_struct d && named n d)
               (iter_all (get_dwarf_info Samples.alias_elf)) = Some S' ->
     main Samples.alias_elf n = emit_class n S' /\
     (S' = Samples.D_first ->
      tail (stdout (main Samples.alias_elf "D_t"))
        = tail (stdout (main Samples.alias_elf n)) /\
      outcome (main Samples.alias_elf "D_t")
        = outcome (main Samples.alias_elf n))).
Proof.
  assert (H1 : has_dwarf_info Samples.alias_elf = true) by reflexivity.
  assert (H2 : build_index (get_dwarf_info Samples.alias_elf)
               = Ok (Samples.index_of Samples.alias_elf))
    by (vm_compute; reflexivity).
  assert (H3 : structs_by_name (Samples.index_of Samples.alias_elf) !! "D_t"
               = None) by (vm_compute; reflexivity).
  assert (H4 : typedefs_by_name (Samples.index_of Samples.alias_elf) !! "D_t"
               = Some Samples.D_t_first) by (vm_compute; reflexivity).
  assert (H5 : attributes Samples.D_t_first !! "DW_AT_type"
               = Some (mkAttr (PyInt 20))) by (vm_compute; reflexivity).
  assert (H6 : value (mkAttr (PyInt 20)) = PyInt 20) by reflexivity.
  assert (H7 : structs_by_offset (Samples.index_of Samples.alias_elf)
                 !! (20 + cu_offset Samples.D_t_first) = Some Samples.D_first)
    by (vm_compute; reflexivity).
  repeat (split; [assumption |]).
  exact (typedef_alias_prints_members_of_target Samples.alias_elf _ "D_t"
           Samples.D_t_first _ 20 Samples.D_first H1 H2 H3 H4 H5 H6 H7).
Defined.

(** When the struct behind the typedef is the last of its name, the two
    queries agree: [Point_t] and [Point]. *)
Example point_alias_agrees :
  last_such (fun d => is_struct d && named "Point" d)
            (iter_all (get_dwarf_info Samples.point_elf))
    = Some Samples.Point /\
  resolve_struct (Samples.index_of Samples.point_elf) "Point_t"
    = Ok Samples.Point /\
  tail (stdout (main Samples.point_elf "Point_t"))
    = tail (stdout (main Samples.point_elf "Point")).
Proof. vm_compute. repeat split. Qed.
